(** * ikago: endpoint addresses, capture filters and the encrypted framed
      TCP connection

    A shallow embedding of [internal/addr/addr.go] (package [addr]) and
    of the TCP connection of package [pcap], followed by the properties
    the specification states about them.

    Conventions of the embedding.
    - A Go [string] is a [string] (a sequence of 8-bit characters), a
      [[]byte] is a [list byte]; a slice whose nil-ness the code tests
      ([net.IP], the stash) is an [option (list _)], [None] being [nil].
    - A Go [int] is a [Z]; where the code does arithmetic on it the
      64-bit wrap-around is written out ([Go.wrap_int]).
    - A function that can panic returns an [exec]: [Ret v] or [Panic p].
    - A Go [(v, err)] result is a pair whose second component is an
      [option error], [None] being the nil error. *)

From Stdlib Require Import ZArith List String Ascii Bool Lia.
From Stdlib Require Import Strings.Byte DecimalString.
Import ListNotations.

Open Scope string_scope.
Open Scope list_scope.
Open Scope Z_scope.

(** String concatenation, Go's [+] on strings. *)
Infix "+++" := String.append (at level 60, right associativity).

(* ================================================================== *)
(** ** Go runtime notions *)
(* ================================================================== *)

Module Go.

(** Run-time panics the code can raise. *)
Inductive panic : Set :=
| index_out_of_range (i len : Z)
| slice_out_of_range (bound cap : Z).

Inductive exec (A : Type) : Type :=
| Ret (a : A)
| Panic (p : panic).
Arguments Ret {A} a.
Arguments Panic {A} p.

Definition bind {A B : Type} (m : exec A) (k : A -> exec B) : exec B :=
  match m with
  | Ret a => k a
  | Panic p => Panic p
  end.

(** [int] on a 64-bit platform. *)
Definition int_max : Z := 2 ^ 63 - 1.
Definition int_min : Z := - 2 ^ 63.
Definition wrap_int (z : Z) : Z := (z + 2 ^ 63) mod 2 ^ 64 - 2 ^ 63.

(** A slice that may be nil. *)
Definition slice (A : Type) : Type := option (list A).

Definition elems {A : Type} (s : slice A) : list A :=
  match s with
  | Some l => l
  | None => []
  end.

(** [len(s)]; the length of a nil slice is 0. *)
Definition len {A : Type} (s : slice A) : Z := Z.of_nat (List.length (elems s)).

Definition is_nil {A : Type} (s : slice A) : bool :=
  match s with
  | Some _ => false
  | None => true
  end.

(** [s[i]] *)
Definition index {A : Type} (s : slice A) (i : Z) : exec A :=
  if (0 <=? i) && (i <? len s) then
    match nth_error (elems s) (Z.to_nat i) with
    | Some a => Ret a
    | None => Panic (index_out_of_range i (len s))
    end
  else Panic (index_out_of_range i (len s)).

(** [copy(dst, src)]: the first [min(len(dst), len(src))] elements of
    [dst] are overwritten; the result is the new content of [dst]. *)
Definition copy {A : Type} (dst src : list A) : list A :=
  firstn (List.length dst) src ++ skipn (List.length src) dst.

(** [l[:n]] on a slice whose capacity is its length. *)
Definition slice_to {A : Type} (l : list A) (n : Z) : exec (list A) :=
  if (0 <=? n) && (n <=? Z.of_nat (List.length l)) then Ret (firstn (Z.to_nat n) l)
  else Panic (slice_out_of_range n (Z.of_nat (List.length l))).

(** Strings. *)
Definition str_len (s : string) : Z := Z.of_nat (String.length s).

(** [s[i]] *)
Definition str_index (s : string) (i : Z) : exec ascii :=
  if (0 <=? i) && (i <? str_len s) then
    match String.get (Z.to_nat i) s with
    | Some c => Ret c
    | None => Panic (index_out_of_range i (str_len s))
    end
  else Panic (index_out_of_range i (str_len s)).

(** [s[lo:hi]] *)
Definition str_slice (s : string) (lo hi : Z) : exec string :=
  if (0 <=? lo) && (lo <=? hi) && (hi <=? str_len s) then
    Ret (substring (Z.to_nat lo) (Z.to_nat (hi - lo)) s)
  else Panic (slice_out_of_range (if hi <=? str_len s then lo else hi) (str_len s)).

(** [s[lo:]] *)
Definition str_from (s : string) (lo : Z) : exec string :=
  str_slice s lo (str_len s).

(** The numeric value of a character, as Go's [byte]. *)
Definition code (c : ascii) : Z := Z.of_N (N_of_ascii c).

Definition in_range (lo hi c : ascii) : bool :=
  (code lo <=? code c) && (code c <=? code hi).

Fixpoint str_drop (n : nat) (s : string) : string :=
  match n, s with
  | O, _ => s
  | S n', String _ s' => str_drop n' s'
  | S _, EmptyString => EmptyString
  end.

Fixpoint str_take (n : nat) (s : string) : string :=
  match n, s with
  | O, _ => EmptyString
  | S n', String c s' => String c (str_take n' s')
  | S _, EmptyString => EmptyString
  end.

(** [strings.IndexByte]: position of the first occurrence. *)
Fixpoint IndexByte (s : string) (c : ascii) : option nat :=
  match s with
  | EmptyString => None
  | String d s' =>
      if Ascii.eqb d c then Some O
      else match IndexByte s' c with
           | Some i => Some (S i)
           | None => None
           end
  end.

(** Position of the last occurrence. *)
Fixpoint LastIndexByte (s : string) (c : ascii) : option nat :=
  match s with
  | EmptyString => None
  | String d s' =>
      match LastIndexByte s' c with
      | Some i => Some (S i)
      | None => if Ascii.eqb d c then Some O else None
      end
  end.

(** [%d] of an integer. *)
Definition format_int (z : Z) : string := NilZero.string_of_int (Z.to_int z).

End Go.

Export Go.

Notation "x <- m ;; k" := (Go.bind m (fun x => k))
  (at level 61, m at next level, right associativity).

(* ================================================================== *)
(** ** Endpoints and errors *)
(* ================================================================== *)

(** [net.IP]: a byte slice, possibly nil. *)
Definition IP : Type := slice byte.

(** The endpoint kinds that implement [net.Addr] here.  The [net] kinds
    are always held by pointer; the two kinds of package [addr] have
    value receivers, so both the value and a pointer to it are
    endpoints ([by_ptr]). *)
Record IPAddr : Type := mkIPAddr { IPAddr_IP : IP; IPAddr_Zone : string }.
Record TCPAddr : Type :=
  mkTCPAddr { TCPAddr_IP : IP; TCPAddr_Port : Z; TCPAddr_Zone : string }.
Record UDPAddr : Type :=
  mkUDPAddr { UDPAddr_IP : IP; UDPAddr_Port : Z; UDPAddr_Zone : string }.
Record ICMPQueryAddr : Type := mkICMPQueryAddr { ICMP_IP : IP; ICMP_Id : Z }.
Record MultiIPAddr : Type := mkMultiIPAddr { IPs : list IP }.

Inductive Addr : Type :=
| A_IP (a : IPAddr)
| A_TCP (a : TCPAddr)
| A_UDP (a : UDPAddr)
| A_ICMPQuery (by_ptr : bool) (a : ICMPQueryAddr)
| A_MultiIP (by_ptr : bool) (a : MultiIPAddr).

(** Error values.  [Errorf msg] is a [fmt.Errorf] without [%w], [msg]
    being the formatted text; [Wrapf msg cause] is
    [fmt.Errorf("<msg>: %w", cause)]. *)
Inductive error : Type :=
| ErrSyntax
| ErrRange
| NumError (Func Num : string) (Err : error)
| AddrError (Err Addr : string)
| Errorf (msg : string)
| Wrapf (msg : string) (cause : error)
| OpError (Op Net : string) (Source Address : option Addr) (Err : error)
| External (msg : string).

Definition byte_of_Z (z : Z) : byte :=
  match Byte.of_N (Z.to_N (z mod 256)) with
  | Some b => b
  | None => x00
  end.

Definition Z_of_byte (b : byte) : Z := Z.of_N (Byte.to_N b).

(* ================================================================== *)
(** ** Library functions the package calls *)
(* ================================================================== *)

(** [strconv.ParseUint(s, base, bitSize)] for an explicit base
    [2 <= base <= 36] and [1 <= bitSize <= 64], which is how the package
    calls it (base 10, 16 bits).  The value is a [uint64]. *)
Module strconv.

Definition maxUint64 : Z := 2 ^ 64 - 1.

Definition syntaxError (fn str : string) : error := NumError fn str ErrSyntax.
Definition rangeError (fn str : string) : error := NumError fn str ErrRange.

(** [lower(c)]: [c | ('x' - 'X')]. *)
Definition lower (c : Z) : Z := Z.lor c 32.

(** The digit a character stands for, if any. *)
Definition digit_of (ch : ascii) : option Z :=
  let c := code ch in
  if (code "0" <=? c) && (c <=? code "9") then Some (c - code "0")
  else if (code "a" <=? lower c) && (lower c <=? code "z")
       then Some (lower c - code "a" + 10)
       else None.

(** The loop over the bytes of [s]; [s0] is the whole input, [n] the
    value so far. *)
Fixpoint ParseUint_loop (s0 : string) (base maxVal cutoff : Z)
         (s : string) (n : Z) : Z * option error :=
  match s with
  | EmptyString => (n, None)
  | String ch s' =>
      match digit_of ch with
      | None => (0, Some (syntaxError "ParseUint" s0))
      | Some d =>
          if d >=? base then (0, Some (syntaxError "ParseUint" s0))
          else if n >=? cutoff then (maxVal, Some (rangeError "ParseUint" s0))
          else
            let n := (n * base) mod 2 ^ 64 in
            let n1 := (n + d) mod 2 ^ 64 in
            if (n1 <? n) || (n1 >? maxVal)
            then (maxVal, Some (rangeError "ParseUint" s0))
            else ParseUint_loop s0 base maxVal cutoff s' n1
      end
  end.

Definition ParseUint (s : string) (base bitSize : Z) : Z * option error :=
  if String.eqb s "" then (0, Some (syntaxError "ParseUint" s))
  else
    let cutoff := maxUint64 / base + 1 in
    let maxVal := 2 ^ bitSize - 1 in
    ParseUint_loop s base maxVal cutoff s 0.

End strconv.

(** [encoding/hex] *)
Module hex.

Definition hextable : string := "0123456789abcdef".

Definition hexchar (i : Z) : ascii :=
  match String.get (Z.to_nat i) hextable with
  | Some c => c
  | None => "0"%char
  end.

Definition EncodedLen (n : Z) : Z := n * 2.

(** [hex.Encode(dst, src)] with [len(dst) = EncodedLen(len(src))]:
    the content of [dst] afterwards. *)
Fixpoint Encode (src : list byte) : string :=
  match src with
  | [] => EmptyString
  | v :: src' =>
      String (hexchar (Z.shiftr (Z_of_byte v) 4))
        (String (hexchar (Z.land (Z_of_byte v) 15)) (Encode src'))
  end.

End hex.

(** Package [net]: addresses and their text forms (the parser is the
    one of [net/ip.go] that rejects leading zeros in dotted form). *)
Module net.

Definition IPv4len : Z := 4.
Definition IPv6len : Z := 16.

Definition v4InV6Prefix : list byte :=
  [x00; x00; x00; x00; x00; x00; x00; x00; x00; x00; xff; xff].

(** [net.IPv4(a, b, c, d)]: the 16-byte form. *)
Definition IPv4 (a b c d : byte) : IP := Some (v4InV6Prefix ++ [a; b; c; d]).

Definition isZeros (p : list byte) : bool := forallb (Byte.eqb x00) p.

(** [ip.To4()] *)
Definition To4 (ip : IP) : IP :=
  if len ip =? IPv4len then ip
  else if (len ip =? IPv6len)
          && isZeros (firstn 10 (elems ip))
          && Byte.eqb (nth 10 (elems ip) x00) xff
          && Byte.eqb (nth 11 (elems ip) x00) xff
       then Some (firstn 4 (skipn 12 (elems ip)))
       else None.

(** [uitoa] *)
Definition uitoa (n : Z) : string := NilZero.string_of_uint (N.to_uint (Z.to_N n)).

(** The dotted form of four bytes. *)
Definition dotted (p4 : list byte) : string :=
  uitoa (Z_of_byte (nth 0 p4 x00)) +++ "." +++
  uitoa (Z_of_byte (nth 1 p4 x00)) +++ "." +++
  uitoa (Z_of_byte (nth 2 p4 x00)) +++ "." +++
  uitoa (Z_of_byte (nth 3 p4 x00)).

(** [ip.String()] for an address whose [To4()] is not nil: the dotted
    branch of [String], the only one the filter code can reach. *)
Definition String4 (ip : IP) : string := dotted (elems (To4 ip)).

Definition big : Z := 16777215.

(** [dtoi]: a decimal prefix of [s]; value, characters used, ok. *)
Fixpoint dtoi_loop (s : string) (n : Z) (i : nat) : Z * nat * bool :=
  match s with
  | String ch s' =>
      if in_range "0" "9" ch then
        let n := n * 10 + (code ch - code "0") in
        if n >=? big then (big, i, false) else dtoi_loop s' n (S i)
      else if Nat.eqb i 0 then (0, O, false) else (n, i, true)
  | EmptyString => if Nat.eqb i 0 then (0, O, false) else (n, i, true)
  end.

Definition dtoi (s : string) : Z * nat * bool := dtoi_loop s 0 O.

(** [xtoi]: a hexadecimal prefix of [s]. *)
Fixpoint xtoi_loop (s : string) (n : Z) (i : nat) : Z * nat * bool :=
  match s with
  | String ch s' =>
      let d :=
        if in_range "0" "9" ch then Some (code ch - code "0")
        else if in_range "a" "f" ch then Some (code ch - code "a" + 10)
        else if in_range "A" "F" ch then Some (code ch - code "A" + 10)
        else None in
      match d with
      | Some d =>
          let n := n * 16 + d in
          if n >=? big then (0, i, false) else xtoi_loop s' n (S i)
      | None => if Nat.eqb i 0 then (0, i, false) else (n, i, true)
      end
  | EmptyString => if Nat.eqb i 0 then (0, i, false) else (n, i, true)
  end.

Definition xtoi (s : string) : Z * nat * bool := xtoi_loop s 0 O.

Definition head_is (s : string) (c : ascii) : bool :=
  match s with
  | String d _ => Ascii.eqb d c
  | EmptyString => false
  end.

(** [parseIPv4]: the loop over the four octets; [todo] octets are
    left, [p] holds the octets read. *)
Fixpoint parseIPv4_loop (todo : nat) (s : string) (p : list byte)
  : option (list byte) :=
  match todo with
  | O => if String.eqb s "" then Some p else None
  | S todo' =>
      if String.eqb s "" then None
      else
        let after_dot :=
          if Nat.ltb 0 (List.length p)
          then (if head_is s "." then Some (str_drop 1 s) else None)
          else Some s in
        match after_dot with
        | None => None
        | Some s =>
            let '(n, c, ok) := dtoi s in
            if negb ok || (n >? 255) then None
            else if Nat.ltb 1 c && head_is s "0" then None
            else parseIPv4_loop todo' (str_drop c s) (p ++ [byte_of_Z n])
        end
  end.

Definition parseIPv4 (s : string) : IP :=
  match parseIPv4_loop 4 s [] with
  | Some p => IPv4 (nth 0 p x00) (nth 1 p x00) (nth 2 p x00) (nth 3 p x00)
  | None => None
  end.

(** [parseIPv6]: the loop that reads 16-bit groups.  [room] counts
    the groups still free, so the loop test [i < IPv6len] is
    [room <> 0]; [ip] holds the [i] bytes written so far; [ellipsis]
    is [None] for -1.  The result is [None] where the code returns
    nil, and the state on leaving the loop otherwise. *)
Fixpoint parseIPv6_loop (room : nat) (s : string) (ip : list byte)
         (ellipsis : option nat)
  : option (string * list byte * option nat) :=
  match room with
  | O => Some (s, ip, ellipsis)
  | S room' =>
      let i := List.length ip in
      let '(n, c, ok) := xtoi s in
      if negb ok || (n >? 65535) then None
      else if Nat.ltb c (String.length s) && head_is (str_drop c s) "." then
        (* trailing dotted quad *)
        if (match ellipsis with None => true | Some _ => false end)
           && negb (Nat.eqb i 12) then None
        else if Nat.ltb 16 (i + 4) then None
        else
          match parseIPv4 s with
          | None => None
          | Some ip4 => Some ("", ip ++ firstn 4 (skipn 12 ip4), ellipsis)
          end
      else
        let ip := ip ++ [byte_of_Z (Z.shiftr n 8); byte_of_Z n] in
        let i := List.length ip in
        let s := str_drop c s in
        if String.eqb s "" then Some (s, ip, ellipsis)
        else if negb (head_is s ":") || Nat.eqb (String.length s) 1 then None
        else
          let s := str_drop 1 s in
          if head_is s ":" then
            match ellipsis with
            | Some _ => None
            | None =>
                let s := str_drop 1 s in
                if String.eqb s "" then Some (s, ip, Some i)
                else parseIPv6_loop room' s ip (Some i)
            end
          else parseIPv6_loop room' s ip ellipsis
  end.

Definition zeros (n : nat) : list byte := repeat x00 n.

Definition parseIPv6 (s : string) : IP :=
  let leading := Nat.leb 2 (String.length s) && head_is s ":"
                 && head_is (str_drop 1 s) ":" in
  let ellipsis := if leading then Some O else None in
  let s := if leading then str_drop 2 s else s in
  if leading && String.eqb s "" then Some (zeros 16)
  else
    match parseIPv6_loop 8 s [] ellipsis with
    | None => None
    | Some (s, ip, ellipsis) =>
        if negb (String.eqb s "") then None
        else
          let i := List.length ip in
          if Nat.ltb i 16 then
            match ellipsis with
            | None => None
            | Some e =>
                (* the bytes from [e] on move to the end, zeros fill
                   the gap *)
                Some (firstn e ip ++ zeros (16 - i) ++ skipn e ip)
            end
          else
            match ellipsis with
            | Some _ => None
            | None => Some ip
            end
    end.

(** [net.ParseIP]: the first ['.'] or [':'] decides the family. *)
Fixpoint ParseIP_scan (s0 s : string) : IP :=
  match s with
  | EmptyString => None
  | String ch s' =>
      if Ascii.eqb ch "." then parseIPv4 s0
      else if Ascii.eqb ch ":" then parseIPv6 s0
      else ParseIP_scan s0 s'
  end.

Definition ParseIP (s : string) : IP := ParseIP_scan s s.

Definition addrErr (addr why : string) : string * string * option error :=
  ("", "", Some (AddrError why addr)).

Definition has_byte (s : string) (c : ascii) : bool :=
  match IndexByte s c with
  | Some _ => true
  | None => false
  end.

(** [net.SplitHostPort] *)
Definition SplitHostPort (hostport : string) : string * string * option error :=
  let missingPort := "missing port in address" in
  let tooManyColons := "too many colons in address" in
  match LastIndexByte hostport ":" with
  | None => addrErr hostport missingPort
  | Some i =>
      let checks (host : string) (j k : nat) :=
        if has_byte (str_drop j hostport) "[" then
          addrErr hostport "unexpected '[' in address"
        else if has_byte (str_drop k hostport) "]" then
          addrErr hostport "unexpected ']' in address"
        else (host, str_drop (S i) hostport, None) in
      if head_is hostport "[" then
        match IndexByte hostport "]" with
        | None => addrErr hostport "missing ']' in address"
        | Some e =>
            if Nat.eqb (S e) (String.length hostport) then
              addrErr hostport missingPort
            else if Nat.eqb (S e) i then
              checks (str_take (e - 1) (str_drop 1 hostport)) 1%nat (S e)
            else if head_is (str_drop (S e) hostport) ":" then
              addrErr hostport tooManyColons
            else addrErr hostport missingPort
        end
      else
        let host := str_take i hostport in
        if has_byte host ":" then addrErr hostport tooManyColons
        else checks host O O
  end.

End net.

(* ================================================================== *)
(** ** Package [addr] *)
(* ================================================================== *)

Module addr.

(** [MultiIPAddr.IPv4]: the first address with an IPv4 form, nil if
    there is none. *)
Fixpoint IPv4_loop (ips : list IP) : IP :=
  match ips with
  | [] => None
  | ip :: ips' => if negb (is_nil (net.To4 ip)) then ip else IPv4_loop ips'
  end.

Definition IPv4 (a : MultiIPAddr) : IP := IPv4_loop (IPs a).

(** [MultiIPAddr.IPv6]: the first address without an IPv4 form, nil if
    there is none. *)
Fixpoint IPv6_loop (ips : list IP) : IP :=
  match ips with
  | [] => None
  | ip :: ips' => if is_nil (net.To4 ip) then ip else IPv6_loop ips'
  end.

Definition IPv6 (a : MultiIPAddr) : IP := IPv6_loop (IPs a).

(** [ParseTCPAddr] *)
Definition ParseTCPAddr (s : string) : option TCPAddr * option error :=
  let '(ipStr, portStr, err) := net.SplitHostPort s in
  match err with
  | Some e => (None, Some (Wrapf "split host port" e))
  | None =>
      let ip := net.ParseIP ipStr in
      if is_nil ip then (None, Some (Errorf ("invalid ip " +++ ipStr)))
      else
        let '(port, err) := strconv.ParseUint portStr 10 16 in
        match err with
        | Some e => (None, Some (Wrapf ("parse port " +++ portStr) e))
        | None => (Some (mkTCPAddr ip port ""), None)
        end
  end.

(** [ParseAddr] *)
Definition ParseAddr (s : string) : exec (option Addr * option error) :=
  c0 <- str_index s 0 ;;
  if Ascii.eqb c0 ":" then
    (* Guess port *)
    rest <- str_from s 1 ;;
    let '(port, err) := strconv.ParseUint rest 10 16 in
    match err with
    | Some e => Ret (None, Some (Wrapf ("parse port " +++ rest) e))
    | None => Ret (Some (A_TCP (mkTCPAddr None port "")), None)
    end
  else
    (* Guess IP and port *)
    let '(addr, err) := ParseTCPAddr s in
    match err with
    | Some _ =>
        (* IP *)
        let ip := net.ParseIP s in
        if is_nil ip then Ret (None, Some (Errorf ("invalid ip " +++ s)))
        else Ret (Some (A_IP (mkIPAddr ip "")), None)
    | None => Ret (option_map A_TCP addr, None)
    end.

(** [fullString] *)
Definition fullString (ip : IP) : exec string :=
  if negb (is_nil (net.To4 ip)) then Ret (net.String4 ip)
  else
    let dst := hex.Encode (elems ip) in
    g0 <- str_slice dst 0 4 ;;
    g1 <- str_slice dst 4 8 ;;
    g2 <- str_slice dst 8 12 ;;
    g3 <- str_slice dst 12 16 ;;
    g4 <- str_slice dst 16 20 ;;
    g5 <- str_slice dst 20 24 ;;
    g6 <- str_slice dst 24 28 ;;
    g7 <- str_from dst 28 ;;
    Ret (g0 +++ ":" +++ g1 +++ ":" +++ g2 +++ ":" +++ g3 +++ ":" +++
         g4 +++ ":" +++ g5 +++ ":" +++ g6 +++ ":" +++ g7).

(** [%T] of an endpoint. *)
Definition type_name (a : Addr) : string :=
  match a with
  | A_IP _ => "*net.IPAddr"
  | A_TCP _ => "*net.TCPAddr"
  | A_UDP _ => "*net.UDPAddr"
  | A_ICMPQuery false _ => "addr.ICMPQueryAddr"
  | A_ICMPQuery true _ => "*addr.ICMPQueryAddr"
  | A_MultiIP false _ => "addr.MultiIPAddr"
  | A_MultiIP true _ => "*addr.MultiIPAddr"
  end.

(** [bpfFilter] *)
Definition bpfFilter (prefix : string) (addr : Addr) : exec (string * option error) :=
  match addr with
  | A_IP a =>
      h <- fullString (IPAddr_IP a) ;;
      Ret ("(" +++ prefix +++ " host " +++ h +++ ")", None)
  | A_TCP tcpAddr =>
      if is_nil (TCPAddr_IP tcpAddr) then
        Ret ("(" +++ prefix +++ " port " +++ format_int (TCPAddr_Port tcpAddr) +++ ")",
             None)
      else
        h <- fullString (TCPAddr_IP tcpAddr) ;;
        Ret ("(" +++ prefix +++ " host " +++ h +++ " && " +++ prefix +++ " port "
                 +++ format_int (TCPAddr_Port tcpAddr) +++ ")", None)
  | t => Ret ("", Some (Errorf ("type " +++ type_name t +++ " not support")))
  end.

(** [SrcBPFFilter] *)
Definition SrcBPFFilter (addr : Addr) : exec (string * option error) :=
  bpfFilter "src" addr.

(** [DstBPFFilter] *)
Definition DstBPFFilter (addr : Addr) : exec (string * option error) :=
  bpfFilter "dst" addr.

End addr.

(* ================================================================== *)
(** ** Package [pcap]: the encrypted framed TCP connection *)
(* ================================================================== *)

Module pcap.

(** The collaborators of a connection, each an interface with its
    own state: the stream socket ([*net.TCPConn]), the codec
    ([crypto.Crypt]) and the frame extractor ([*Desticker]).  A
    method takes the state and returns it with its results. *)

Class NetConn (S : Type) : Type := {
  (** [Read(p)] with [len(p) = cap]: the bytes stored at the start of
      [p] (their number is the [n] returned) and the error. *)
  conn_Read : S -> Z -> list byte * option error * S;
  (** [Write(p)]: the count and the error. *)
  conn_Write : S -> list byte -> Z * option error * S;
  LocalAddr : S -> option Addr;
  RemoteAddr : S -> option Addr;
  (** [io.Reader]: [0 <= n <= len(p)]. *)
  conn_Read_le : forall s cap data err s',
      0 <= cap -> conn_Read s cap = (data, err, s') ->
      Z.of_nat (List.length data) <= cap;
  (** [io.Writer]: [0 <= n <= len(p)], and an error whenever
      [n < len(p)]. *)
  conn_Write_le : forall s p n err s',
      conn_Write s p = (n, err, s') ->
      0 <= n <= Z.of_nat (List.length p)
      /\ (n < Z.of_nat (List.length p) -> err <> None)
}.

Class Crypt (C : Type) : Type := {
  Encrypt : C -> list byte -> list byte * option error * C;
  Decrypt : C -> list byte -> list byte * option error * C
}.

Class Desticker (D : Type) : Type := {
  NewDesticker : D;
  SetDeadline : D -> Z -> D;
  Append : D -> list byte -> slice (list byte) * option error * D
}.

(** The calls a method makes on the collaborators, in order. *)
Inductive call : Type :=
| SockRead (cap : Z)
| SockWrite (p : list byte)
| CryptDecrypt (p : list byte)
| CryptEncrypt (p : list byte)
| DestickAppend (p : list byte).

Definition is_sock_read (e : call) : bool :=
  match e with SockRead _ => true | _ => false end.
Definition is_sock_write (e : call) : bool :=
  match e with SockWrite _ => true | _ => false end.
Definition is_sock (e : call) : bool := is_sock_read e || is_sock_write e.

(** [keepSticky]: 30 seconds, in nanoseconds. *)
Definition keepSticky : Z := 30 * 1000000000.

Section Conn.

Context {S C D : Type} {NC : NetConn S} {CR : Crypt C} {DS : Desticker D}.

Record TCPConn : Type := mkTCPConn {
  conn : S;
  crypt : C;
  buffer : list byte;
  destick : D;
  stash : slice (list byte);
  stashId : Z
}.

Definition set_conn (c : TCPConn) (s : S) : TCPConn :=
  mkTCPConn s (crypt c) (buffer c) (destick c) (stash c) (stashId c).
Definition set_crypt (c : TCPConn) (k : C) : TCPConn :=
  mkTCPConn (conn c) k (buffer c) (destick c) (stash c) (stashId c).
Definition set_buffer (c : TCPConn) (b : list byte) : TCPConn :=
  mkTCPConn (conn c) (crypt c) b (destick c) (stash c) (stashId c).
Definition set_destick (c : TCPConn) (d : D) : TCPConn :=
  mkTCPConn (conn c) (crypt c) (buffer c) d (stash c) (stashId c).
Definition set_stash (c : TCPConn) (p : slice (list byte)) : TCPConn :=
  mkTCPConn (conn c) (crypt c) (buffer c) (destick c) p (stashId c).
Definition set_stashId (c : TCPConn) (i : Z) : TCPConn :=
  mkTCPConn (conn c) (crypt c) (buffer c) (destick c) (stash c) i.

(** [newTCPConn], with the socket and the codec that [DialTCP] and
    [Accept] store into the new connection right after. *)
Definition newTCPConn (s : S) (k : C) : TCPConn :=
  {| conn := s;
     crypt := k;
     buffer := repeat x00 (Z.to_nat 65535);
     destick := SetDeadline NewDesticker keepSticky;
     stash := Some [];
     stashId := 0 |}.

(** What a [Read] leaves: the results [(n, err)], the caller's
    buffer, the connection, and the calls made. *)
Record ReadResult : Type := mkReadResult {
  r_n : Z;
  r_err : option error;
  r_b : list byte;
  r_conn : TCPConn;
  r_calls : list call
}.

(** The tail of [Read]: "Read stashed packet". *)
Definition readStashed (c : TCPConn) (b : list byte) (calls : list call)
  : exec ReadResult :=
  (* copy(b, c.stash[c.stashId]) *)
  pkt <- index (stash c) (stashId c) ;;
  let b := copy b pkt in
  (* c.stashId++ *)
  let c := set_stashId c (wrap_int (stashId c + 1)) in
  (* return len(c.stash[c.stashId-1]), nil *)
  pkt' <- index (stash c) (wrap_int (stashId c - 1)) ;;
  Ret (mkReadResult (Z.of_nat (List.length pkt')) None b c calls).

Definition opError (op : string) (c : TCPConn) (e : error) : error :=
  OpError op "pcap" (LocalAddr (conn c)) (RemoteAddr (conn c)) e.

(** [Read] *)
Definition Read (c : TCPConn) (b : list byte) : exec ReadResult :=
  (* If stashed packets exist, read from stash, otherwise, read from conn *)
  if is_nil (stash c) || (len (stash c) <=? stashId c) then
    let cap := Z.of_nat (List.length (buffer c)) in
    let '(data, err, s) := conn_Read (conn c) cap in
    let n := Z.of_nat (List.length data) in
    let c := set_conn (set_buffer c (copy (buffer c) data)) s in
    let calls := [SockRead cap] in
    match err with
    | Some e => Ret (mkReadResult 0 (Some e) b c calls)
    | None =>
        p <- slice_to (buffer c) n ;;
        let '(dp, err, k) := Decrypt (crypt c) p in
        let c := set_crypt c k in
        let calls := calls ++ [CryptDecrypt p] in
        match err with
        | Some e =>
            Ret (mkReadResult 0 (Some (opError "read" c (Wrapf "decrypt" e))) b c calls)
        | None =>
            (* Destick *)
            let '(packets, err, d) := Append (destick c) dp in
            let c := set_destick c d in
            let calls := calls ++ [DestickAppend dp] in
            match err with
            | Some e =>
                Ret (mkReadResult 0 (Some (opError "read" c (Wrapf "destick" e)))
                       b c calls)
            | None =>
                if len packets =? 0 then Ret (mkReadResult 0 None b c calls)
                else readStashed (set_stashId (set_stash c packets) 0) b calls
            end
        end
    end
  else readStashed c b [].

Record WriteResult : Type := mkWriteResult {
  w_n : Z;
  w_err : option error;
  w_conn : TCPConn;
  w_calls : list call
}.

(** [Write] *)
Definition Write (c : TCPConn) (b : list byte) : WriteResult :=
  (* Encrypt *)
  let '(contents, err, k) := Encrypt (crypt c) b in
  let c := set_crypt c k in
  match err with
  | Some e =>
      mkWriteResult 0 (Some (opError "write" c (Wrapf "encrypt" e))) c [CryptEncrypt b]
  | None =>
      let '(n, err, s) := conn_Write (conn c) contents in
      mkWriteResult n err (set_conn c s) [CryptEncrypt b; SockWrite contents]
  end.

(** The two logical states of a connection. *)
Definition draining (c : TCPConn) : Prop := 0 <= stashId c < len (stash c).
Definition awaiting (c : TCPConn) : Prop := stashId c = len (stash c).

(** The cursor stays within the stash. *)
Definition cursor_ok (c : TCPConn) : Prop := 0 <= stashId c <= len (stash c).

(** The stash is a Go slice: its length is an [int]. *)
Definition stash_is_slice (c : TCPConn) : Prop := len (stash c) <= int_max.

(** The connections a program can hold: a fresh one, or one left by
    a [Read] or a [Write] on such a connection. *)
Inductive reachable : TCPConn -> Prop :=
| reach_new : forall s k, reachable (newTCPConn s k)
| reach_Read : forall c b r,
    reachable c -> Read c b = Ret r -> stash_is_slice (r_conn r) ->
    reachable (r_conn r)
| reach_Write : forall c b,
    reachable c -> reachable (w_conn (Write c b)).

End Conn.

Arguments TCPConn S C D : clear implicits.
Arguments ReadResult S C D : clear implicits.
Arguments WriteResult S C D : clear implicits.

End pcap.

(* ================================================================== *)
(** ** Simulated collaborators *)
(* ================================================================== *)

(** Concrete collaborators on which the connection can be run: a
    scripted socket, a keyed codec that prepends a tag byte, and a
    frame extractor for frames that carry a one-byte length. *)
Module Sim.

Import pcap.

(** A socket whose incoming segments (or read errors) are scripted
    and whose writes are recorded. *)
Record Sock : Type := mkSock {
  inbox : list (list byte + error);
  outbox : list (list byte);
  writable : bool;
  local : option Addr;
  remote : option Addr
}.

Definition sock_Read (s : Sock) (cap : Z) : list byte * option error * Sock :=
  match inbox s with
  | [] => ([], Some (External "EOF"), s)
  | inr e :: rest => ([], Some e, mkSock rest (outbox s) (writable s) (local s) (remote s))
  | inl seg :: rest =>
      if Z.of_nat (List.length seg) <=? cap then
        (seg, None, mkSock rest (outbox s) (writable s) (local s) (remote s))
      else
        (firstn (Z.to_nat cap) seg, None,
         mkSock (inl (skipn (Z.to_nat cap) seg) :: rest)
                (outbox s) (writable s) (local s) (remote s))
  end.

Definition sock_Write (s : Sock) (p : list byte) : Z * option error * Sock :=
  if writable s then
    (Z.of_nat (List.length p), None,
     mkSock (inbox s) (outbox s ++ [p]) (writable s) (local s) (remote s))
  else (0, Some (External "broken pipe"), s).

(** A codec: the key, if any.  A ciphertext is the tag byte [0x01]
    followed by the plaintext, every byte xor-ed with the key. *)
Definition Cipher : Type := option byte.

Definition xor_byte (k b : byte) : byte :=
  byte_of_Z (Z.lxor (Z_of_byte k) (Z_of_byte b)).

Definition cipher_Encrypt (k : Cipher) (p : list byte)
  : list byte * option error * Cipher :=
  match k with
  | None => ([], Some (External "no key"), k)
  | Some key => (x01 :: map (xor_byte key) p, None, k)
  end.

Definition cipher_Decrypt (k : Cipher) (p : list byte)
  : list byte * option error * Cipher :=
  match k, p with
  | Some key, x01 :: q => (map (xor_byte key) q, None, k)
  | Some _, _ => ([], Some (External "bad tag"), k)
  | None, _ => ([], Some (External "no key"), k)
  end.

(** A frame extractor: the bytes not yet delivered and the deadline.
    A frame on the wire is a length byte followed by that many
    bytes. *)
Record Frames : Type := mkFrames { pending : list byte; deadline : Z }.

Fixpoint extract (fuel : nat) (buf : list byte) : list (list byte) * list byte :=
  match fuel, buf with
  | S fuel', h :: t =>
      let n := Z.to_nat (Z_of_byte h) in
      if Nat.ltb (List.length t) n then ([], buf)
      else
        let '(fs, rest) := extract fuel' (skipn n t) in
        (firstn n t :: fs, rest)
  | _, _ => ([], buf)
  end.

Definition frames_Append (d : Frames) (p : list byte)
  : slice (list byte) * option error * Frames :=
  let buf := pending d ++ p in
  let '(fs, rest) := extract (List.length buf) buf in
  (Some fs, None, mkFrames rest (deadline d)).

Lemma sock_Read_le : forall s cap data err s',
    0 <= cap -> sock_Read s cap = (data, err, s') ->
    Z.of_nat (List.length data) <= cap.
Proof.
  intros s cap data err s' Hcap H. unfold sock_Read in H.
  destruct (inbox s) as [|[seg|e] rest]; [inversion H; subst; simpl; lia | |
                                          inversion H; subst; simpl; lia].
  destruct (Z.leb_spec (Z.of_nat (List.length seg)) cap) as [Hle|Hgt];
    inversion H; subst; [assumption|].
  rewrite length_firstn. lia.
Qed.

Lemma sock_Write_le : forall s p n err s',
    sock_Write s p = (n, err, s') ->
    0 <= n <= Z.of_nat (List.length p)
    /\ (n < Z.of_nat (List.length p) -> err <> None).
Proof.
  intros s p n err s' H. unfold sock_Write in H.
  destruct (writable s); inversion H; subst; split; try lia; discriminate.
Qed.

#[global] Instance Sock_NetConn : NetConn Sock := {
  conn_Read := sock_Read;
  conn_Write := sock_Write;
  LocalAddr := local;
  RemoteAddr := remote;
  conn_Read_le := sock_Read_le;
  conn_Write_le := sock_Write_le
}.

#[global] Instance Cipher_Crypt : Crypt Cipher := {
  Encrypt := cipher_Encrypt;
  Decrypt := cipher_Decrypt
}.

#[global] Instance Frames_Desticker : Desticker Frames := {
  NewDesticker := mkFrames [] 0;
  SetDeadline := fun d t => mkFrames (pending d) t;
  Append := frames_Append
}.

Definition here : option Addr := Some (A_TCP (mkTCPAddr (net.IPv4 x0a x00 x00 x01) 4000 "")).
Definition there : option Addr := Some (A_TCP (mkTCPAddr (net.IPv4 x0a x00 x00 x02) 53 "")).

(** A socket with the given script. *)
Definition sock (script : list (list byte + error)) : Sock :=
  mkSock script [] true here there.

(** A connection over the scripted socket, keyed with [0x5a]. *)
Definition connection (script : list (list byte + error)) : TCPConn Sock Cipher Frames :=
  newTCPConn (sock script) (Some x5a).

(** The wire form of a list of datagrams: each one length-prefixed,
    the whole encrypted as one segment. *)
Definition wire (datagrams : list (list byte)) : list byte :=
  fst (fst (cipher_Encrypt (Some x5a)
    (flat_map (fun d => byte_of_Z (Z.of_nat (List.length d)) :: d) datagrams))).

End Sim.

(* ================================================================== *)
(** ** Vocabulary of the properties *)
(* ================================================================== *)

(** [strings.Join(gs, ":")] and [strings.Split(s, ":")]. *)
Fixpoint join_colon (gs : list string) : string :=
  match gs with
  | [] => EmptyString
  | [g] => g
  | g :: gs' => g +++ ":" +++ join_colon gs'
  end.

Fixpoint split_colon (s : string) : list string :=
  match s with
  | EmptyString => [EmptyString]
  | String c s' =>
      if Ascii.eqb c ":" then EmptyString :: split_colon s'
      else match split_colon s' with
           | g :: gs => String c g :: gs
           | [] => [String c EmptyString]
           end
  end.

Definition is_lower_hex (c : ascii) : bool := in_range "0" "9" c || in_range "a" "f" c.

Fixpoint all_chars (f : ascii -> bool) (s : string) : bool :=
  match s with
  | EmptyString => true
  | String c s' => f c && all_chars f s'
  end.

(** A group of exactly four lowercase hexadecimal digits. *)
Definition hex_group (g : string) : bool :=
  Nat.eqb (String.length g) 4 && all_chars is_lower_hex g.

(** The fully expanded form: eight such groups between colons. *)
Definition expanded_form (s : string) : bool :=
  Nat.eqb (List.length (split_colon s)) 8 && forallb hex_group (split_colon s).

(** The 16-bit groups of an address, two bytes each, in hexadecimal. *)
Fixpoint hex_groups (l : list byte) : list string :=
  match l with
  | a :: b :: l' => hex.Encode [a; b] :: hex_groups l'
  | _ => []
  end.

(** An address of one of the two lengths [net] works with. *)
Definition valid_ip (ip : IP) : Prop := len ip = net.IPv4len \/ len ip = net.IPv6len.

(** The endpoint kinds a filter can express. *)
Definition supported (a : Addr) : bool :=
  match a with
  | A_IP _ | A_TCP _ => true
  | _ => false
  end.

Definition starts_with_colon (s : string) : bool := net.head_is s ":".

Definition is_digit (c : ascii) : bool := in_range "0" "9" c.

(** The decimal text of a byte, as [net.IP.String] prints an octet. *)
Definition dec (b : byte) : string := net.uitoa (Z_of_byte b).

(** The dotted text of four octets, as [net.dotted] builds it. *)
Definition dotted4 (a b c d : byte) : string :=
  dec a +++ String "." (dec b +++ String "." (dec c +++ String "." (dec d))).

(** The text does not go on with a digit. *)
Definition nondigit_head (s : string) : Prop :=
  match s with
  | String ch _ => is_digit ch = false
  | EmptyString => True
  end.

(** The text holds none of the characters [SplitHostPort] looks for. *)
Definition plain (s : string) : bool :=
  all_chars (fun c => negb (Ascii.eqb c ":") && negb (Ascii.eqb c "[")
                      && negb (Ascii.eqb c "]")) s.

(** What the per-octet lemmas need of the decimal text of a byte. *)
Definition octet_ok (b : byte) : bool :=
  all_chars is_digit (dec b)
  && negb (String.eqb (dec b) "")
  && (let '(n, c, ok) := net.dtoi (dec b) in
      (n =? Z_of_byte b) && Nat.eqb c (String.length (dec b)) && ok)
  && (Z_of_byte b <=? 255)
  && negb (Nat.ltb 1 (String.length (dec b)) && net.head_is (dec b) "0")
  && Byte.eqb (byte_of_Z (Z_of_byte b)) b.

(** What the port lemmas need of the decimal text of a port. *)
Definition port_ok (n : Z) : bool :=
  let s := net.uitoa n in
  all_chars is_digit s
  && match strconv.ParseUint s 10 16 with
     | (v, None) => v =? n
     | (_, Some _) => false
     end.

(** [f] holds on the [count] integers from [from] on. *)
Fixpoint all_from (f : Z -> bool) (count : nat) (from : Z) : bool :=
  match count with
  | O => true
  | S count' => f from && all_from f count' (from + 1)
  end.

(** The socket calls among the calls of a method. *)
Definition sock_calls (calls : list pcap.call) : list pcap.call :=
  filter pcap.is_sock calls.

(** Sample connections and segments for the simulated collaborators. *)
Module Samples.

Import pcap.

(** One segment that carries a five-byte frame and a one-byte frame. *)
Definition two_frames : list byte :=
  Sim.wire [[x01; x02; x03; x04; x05]; [x07]].

(** One segment that carries the start of a five-byte frame. *)
Definition partial_frame : list byte :=
  fst (fst (Sim.cipher_Encrypt (Some x5a) [x05; x01; x02])).

(** A connection whose stash holds one five-byte frame, not yet read. *)
Definition stashed : TCPConn Sim.Sock Sim.Cipher Sim.Frames :=
  set_stashId (set_stash (Sim.connection []) (Some [[x01; x02; x03; x04; x05]])) 0.

(** One segment whose first byte is not the codec's tag. *)
Definition bad_segment : list byte := [x02; x00; x00].

(** A connection whose codec has no key. *)
Definition keyless : TCPConn Sim.Sock Sim.Cipher Sim.Frames :=
  newTCPConn (Sim.sock []) None.

End Samples.

(* ================================================================== *)
(** ** Vocabulary of the further properties *)
(* ================================================================== *)

Definition is_hex (c : ascii) : bool :=
  in_range "0" "9" c || in_range "a" "f" c || in_range "A" "F" c.

(** The text does not go on with a hexadecimal digit. *)
Definition nonhex_head (s : string) : Prop :=
  match s with
  | String ch _ => is_hex ch = false
  | EmptyString => True
  end.

(** What the group lemmas need of the hexadecimal text of the two bytes
    of [z], a 16-bit value. *)
Definition group_ok (z : Z) : bool :=
  let a := byte_of_Z (z / 256) in
  let b := byte_of_Z z in
  let '(n, c, ok) := net.xtoi (hex.Encode [a; b]) in
  (n =? z) && Nat.eqb c 4 && ok && Byte.eqb (byte_of_Z (Z.shiftr z 8)) a.

(** What [ParseAddr] can return as an endpoint: a TCP endpoint without
    IP or with a 16-byte IP and a 16-bit port, or a point-IP endpoint
    with a 16-byte IP; no zone. *)
Definition parsed_endpoint (ep : Addr) : Prop :=
  match ep with
  | A_TCP t =>
      (TCPAddr_IP t = None \/ len (TCPAddr_IP t) = net.IPv6len)
      /\ 0 <= TCPAddr_Port t <= 65535 /\ TCPAddr_Zone t = ""
  | A_IP i => len (IPAddr_IP i) = net.IPv6len /\ IPAddr_Zone i = ""
  | _ => False
  end.



(* ================================================================== *)
(** * Properties *)
(* ================================================================== *)

(** ** The library models on known inputs *)

Example ParseIP_v4 : net.ParseIP "10.0.0.1" = net.IPv4 x0a x00 x00 x01.
Proof. reflexivity. Qed.
Example ParseIP_loopback6 : net.ParseIP "::1" = Some (net.zeros 15 ++ [x01]).
Proof. reflexivity. Qed.
Example ParseIP_doc6 :
  net.ParseIP "2001:db8::1" =
  Some [x20; x01; x0d; xb8; x00; x00; x00; x00; x00; x00; x00; x00; x00; x00; x00; x01].
Proof. reflexivity. Qed.
Example ParseIP_zero_padded : net.ParseIP "010.0.0.1" = None.
Proof. reflexivity. Qed.
Example ParseIP_mapped : net.ParseIP "::ffff:1.2.3.4" = net.IPv4 x01 x02 x03 x04.
Proof. reflexivity. Qed.
Example ParseIP_full :
  net.ParseIP "1:2:3:4:5:6:7:8" =
  Some [x00; x01; x00; x02; x00; x03; x00; x04; x00; x05; x00; x06; x00; x07; x00; x08].
Proof. reflexivity. Qed.
Example ParseIP_bad : net.ParseIP "1:2:3:4:5:6:7::8" = None /\ net.ParseIP "1:2" = None
  /\ net.ParseIP "1.2.3" = None /\ net.ParseIP "1.2.3.4:80" = None
  /\ net.ParseIP "1::2::3" = None /\ net.ParseIP "[::1]" = None.
Proof. repeat split; reflexivity. Qed.
Example ParseIP_tail : net.ParseIP "1:2:3:4:5:6:7::" =
  Some [x00; x01; x00; x02; x00; x03; x00; x04; x00; x05; x00; x06; x00; x07; x00; x00].
Proof. reflexivity. Qed.
Example SplitHostPort_ex :
  net.SplitHostPort "1.2.3.4:80" = ("1.2.3.4", "80", None)
  /\ net.SplitHostPort "[::1]:80" = ("::1", "80", None)
  /\ net.SplitHostPort "::1" = net.addrErr "::1" "too many colons in address"
  /\ net.SplitHostPort "1.2.3.4" = net.addrErr "1.2.3.4" "missing port in address"
  /\ net.SplitHostPort "[::1]" = net.addrErr "[::1]" "missing port in address"
  /\ net.SplitHostPort "[::1]]:80" = net.addrErr "[::1]]:80" "missing port in address"
  /\ net.SplitHostPort "[::1]:8]0" = net.addrErr "[::1]:8]0" "unexpected ']' in address"
  /\ net.SplitHostPort "[a:b" = net.addrErr "[a:b" "missing ']' in address"
  /\ net.SplitHostPort "a[b:80" = net.addrErr "a[b:80" "unexpected '[' in address"
  /\ net.SplitHostPort "[a]:b:80" = net.addrErr "[a]:b:80" "too many colons in address".
Proof. repeat split; reflexivity. Qed.
Example ParseUint_ex :
  strconv.ParseUint "53" 10 16 = (53, None)
  /\ strconv.ParseUint "65535" 10 16 = (65535, None)
  /\ strconv.ParseUint "65536" 10 16 = (65535, Some (NumError "ParseUint" "65536" ErrRange))
  /\ strconv.ParseUint "" 10 16 = (0, Some (NumError "ParseUint" "" ErrSyntax))
  /\ strconv.ParseUint "+5" 10 16 = (0, Some (NumError "ParseUint" "+5" ErrSyntax))
  /\ strconv.ParseUint "1f" 10 16 = (0, Some (NumError "ParseUint" "1f" ErrSyntax))
  /\ strconv.ParseUint "99999x" 10 16 = (65535, Some (NumError "ParseUint" "99999x" ErrRange))
  /\ strconv.ParseUint "007" 10 16 = (7, None).
Proof. repeat split; reflexivity. Qed.

(** ** Package [addr] on known inputs *)

Example ParseAddr_ex :
  addr.ParseAddr ":53" = Ret (Some (A_TCP (mkTCPAddr None 53 "")), None)
  /\ addr.ParseAddr "10.0.0.1:53"
     = Ret (Some (A_TCP (mkTCPAddr (net.IPv4 x0a x00 x00 x01) 53 "")), None)
  /\ addr.ParseAddr "10.0.0.1" = Ret (Some (A_IP (mkIPAddr (net.IPv4 x0a x00 x00 x01) "")), None)
  /\ addr.ParseAddr "2001:db8::1" = Ret (Some (A_IP (mkIPAddr (net.ParseIP "2001:db8::1") "")), None)
  /\ addr.ParseAddr "[::1]:80" = Ret (Some (A_TCP (mkTCPAddr (net.ParseIP "::1") 80 "")), None).
Proof. repeat split; reflexivity. Qed.

Example fullString_ex :
  addr.fullString (net.ParseIP "::1") = Ret "0000:0000:0000:0000:0000:0000:0000:0001"
  /\ addr.fullString (net.ParseIP "2001:db8::1") = Ret "2001:0db8:0000:0000:0000:0000:0000:0001"
  /\ addr.fullString (net.ParseIP "10.0.0.1") = Ret "10.0.0.1"
  /\ addr.fullString (Some [x0a; x00; x00; x01]) = Ret "10.0.0.1"
  /\ addr.fullString None = Panic (slice_out_of_range 4 0).
Proof. repeat split; reflexivity. Qed.

Example bpfFilter_ex :
  addr.SrcBPFFilter (A_IP (mkIPAddr (net.ParseIP "::1") ""))
  = Ret ("(src host 0000:0000:0000:0000:0000:0000:0000:0001)", None)
  /\ addr.DstBPFFilter (A_TCP (mkTCPAddr None 53 "")) = Ret ("(dst port 53)", None)
  /\ addr.DstBPFFilter (A_TCP (mkTCPAddr (net.ParseIP "10.0.0.1") 53 ""))
     = Ret ("(dst host 10.0.0.1 && dst port 53)", None)
  /\ addr.DstBPFFilter (A_ICMPQuery false (mkICMPQueryAddr None 7))
     = Ret ("", Some (Errorf "type addr.ICMPQueryAddr not support")).
Proof. repeat split; reflexivity. Qed.

(* ================================================================== *)
(** ** Filter hosts *)
(* ================================================================== *)

Lemma hexchar_hi_lower : forall b : byte,
  is_lower_hex (hex.hexchar (Z.shiftr (Z_of_byte b) 4)) = true.
Proof. intros b; destruct b; reflexivity. Qed.

Lemma hexchar_lo_lower : forall b : byte,
  is_lower_hex (hex.hexchar (Z.land (Z_of_byte b) 15)) = true.
Proof. intros b; destruct b; reflexivity. Qed.

Lemma lower_hex_not_colon : forall c, is_lower_hex c = true -> Ascii.eqb c ":" = false.
Proof.
  intros c H. destruct (Ascii.eqb_spec c ":") as [->|]; [discriminate H | reflexivity].
Qed.

Lemma split_colon_group : forall g rest,
  all_chars is_lower_hex g = true ->
  split_colon (g +++ String ":" rest) = g :: split_colon rest.
Proof.
  induction g as [|c g IH]; intros rest H; simpl in *.
  - reflexivity.
  - apply andb_true_iff in H as [Hc Hg].
    rewrite (lower_hex_not_colon c Hc), (IH rest Hg). reflexivity.
Qed.

Lemma split_colon_last : forall g,
  all_chars is_lower_hex g = true -> split_colon g = [g].
Proof.
  induction g as [|c g IH]; intros H; simpl in *.
  - reflexivity.
  - apply andb_true_iff in H as [Hc Hg].
    rewrite (lower_hex_not_colon c Hc), (IH Hg). reflexivity.
Qed.

Lemma hex_pair_group : forall a b : byte, hex_group (hex.Encode [a; b]) = true.
Proof.
  intros a b. unfold hex_group. simpl.
  now rewrite !hexchar_hi_lower, !hexchar_lo_lower.
Qed.

Lemma hex_groups_all : forall l, forallb hex_group (hex_groups l) = true.
Proof.
  fix IH 1. intros [|a [|b l]]; cbn [hex_groups forallb]; try reflexivity.
  rewrite hex_pair_group. apply IH.
Qed.

Lemma split_join_groups : forall gs,
  gs <> [] -> forallb hex_group gs = true -> split_colon (join_colon gs) = gs.
Proof.
  induction gs as [|g gs IH]; intros Hne H; [congruence|].
  simpl in H. apply andb_true_iff in H as [Hg Hgs].
  unfold hex_group in Hg. apply andb_true_iff in Hg as [_ Hg].
  destruct gs as [|g' gs'].
  - simpl. now apply split_colon_last.
  - change (join_colon (g :: g' :: gs')) with (g +++ String ":" (join_colon (g' :: gs'))).
    rewrite split_colon_group by assumption.
    rewrite IH; [reflexivity | discriminate | assumption].
Qed.

Lemma list_of_length_16 : forall (A : Type) (l : list A),
  List.length l = 16%nat ->
  exists a0 a1 a2 a3 a4 a5 a6 a7 a8 a9 a10 a11 a12 a13 a14 a15,
    l = [a0; a1; a2; a3; a4; a5; a6; a7; a8; a9; a10; a11; a12; a13; a14; a15].
Proof.
  intros A l H.
  do 16 (destruct l as [|? l]; [discriminate H|]).
  destruct l; [|discriminate H].
  repeat eexists.
Qed.

(** The hexadecimal branch of [fullString] on sixteen bytes. *)
Lemma fullString_16 : forall ip : IP,
  is_nil (net.To4 ip) = true -> len ip = net.IPv6len ->
  addr.fullString ip = Ret (join_colon (hex_groups (elems ip)))
  /\ List.length (hex_groups (elems ip)) = 8%nat.
Proof.
  intros ip Hnil Hlen. unfold addr.fullString. rewrite Hnil. simpl negb. cbv iota.
  unfold len, net.IPv6len in Hlen.
  assert (Hl : List.length (elems ip) = 16%nat) by lia.
  destruct (list_of_length_16 _ _ Hl)
    as (a0 & a1 & a2 & a3 & a4 & a5 & a6 & a7 & a8 & a9 & a10 & a11 & a12 & a13 & a14 & a15 & ->).
  split; reflexivity.
Qed.

(** The dotted branch of [fullString]. *)
Lemma fullString_v4 : forall ip : IP,
  is_nil (net.To4 ip) = false ->
  addr.fullString ip = Ret (net.dotted (elems (net.To4 ip))).
Proof.
  intros ip Hnil. unfold addr.fullString. rewrite Hnil. reflexivity.
Qed.

(** C5. On an address that is not IPv4 (sixteen bytes, no IPv4 form)
    [fullString] returns eight groups joined by colons, the groups being
    the address two bytes at a time, each byte as two lowercase
    hexadecimal digits: eight colon-separated groups of exactly four
    lowercase hexadecimal characters, none of them elided.  On an
    address with an IPv4 form it returns the dotted decimal text. *)
Theorem fullString_expanded : forall ip : IP,
  (is_nil (net.To4 ip) = true -> len ip = net.IPv6len ->
   exists s,
     addr.fullString ip = Ret s
     /\ s = join_colon (hex_groups (elems ip))
     /\ split_colon s = hex_groups (elems ip)
     /\ List.length (split_colon s) = 8%nat
     /\ Forall (fun g => String.length g = 4%nat /\ all_chars is_lower_hex g = true)
               (split_colon s)
     /\ expanded_form s = true)
  /\ (is_nil (net.To4 ip) = false ->
      addr.fullString ip = Ret (net.dotted (elems (net.To4 ip)))).
Proof.
  intros ip. split.
  - intros Hnil Hlen.
    destruct (fullString_16 ip Hnil Hlen) as [Hs H8].
    exists (join_colon (hex_groups (elems ip))).
    assert (Hsplit : split_colon (join_colon (hex_groups (elems ip)))
                     = hex_groups (elems ip)).
    { apply split_join_groups; [|apply hex_groups_all].
      intros E. rewrite E in H8. discriminate H8. }
    repeat split; try assumption.
    + rewrite Hsplit. assumption.
    + rewrite Hsplit. apply Forall_forall. intros g Hg.
      pose proof (hex_groups_all (elems ip)) as Hall.
      rewrite forallb_forall in Hall. specialize (Hall g Hg).
      unfold hex_group in Hall. apply andb_true_iff in Hall as [Hl Hc].
      split; [now apply Nat.eqb_eq | assumption].
    + unfold expanded_form. rewrite Hsplit, H8, hex_groups_all. reflexivity.
  - apply fullString_v4.
Qed.

Lemma fullString_expanded_witness :
  addr.fullString (net.ParseIP "2001:db8::1")
  = Ret "2001:0db8:0000:0000:0000:0000:0000:0001".
Proof.
  destruct (fullString_expanded (net.ParseIP "2001:db8::1")) as [H _].
  destruct (H eq_refl eq_refl) as (s & Hs & Hj & _).
  rewrite Hs, Hj. reflexivity.
Defined.

(* ================================================================== *)
(** ** Filter compilation *)
(* ================================================================== *)

Lemma To4_of_len4 : forall ip : IP, len ip = net.IPv4len -> net.To4 ip = ip.
Proof.
  intros ip H. unfold net.To4. rewrite H. reflexivity.
Qed.

Lemma len_pos_not_nil : forall (A : Type) (s : slice A), 0 < len s -> is_nil s = false.
Proof.
  intros A [l|] H; [reflexivity | unfold len in H; simpl in H; lia].
Qed.

(** [fullString] returns on every address of a valid length. *)
Lemma fullString_valid : forall ip, valid_ip ip -> exists h, addr.fullString ip = Ret h.
Proof.
  intros ip [H4|H16].
  - exists (net.dotted (elems (net.To4 ip))).
    apply fullString_v4.
    rewrite (To4_of_len4 ip H4). apply len_pos_not_nil. rewrite H4. reflexivity.
  - destruct (is_nil (net.To4 ip)) eqn:Hnil.
    + exists (join_colon (hex_groups (elems ip))).
      apply (fullString_16 ip Hnil H16).
    + exists (net.dotted (elems (net.To4 ip))).
      now apply fullString_v4.
Qed.

(** C6. Compiling a filter with prefix [dir] ([SrcBPFFilter] uses
    "src", [DstBPFFilter] "dst"): a point-IP endpoint gives
    "(dir host H)", a TCP endpoint without IP "(dir port P)", a TCP
    endpoint with an IP "(dir host H && dir port P)", where H is what
    [fullString] returns for the address; any other kind of endpoint
    gives an error that names the kind, and no filter text. *)
Theorem bpfFilter_by_kind : forall (dir : string) (ip : IP) (port : Z) (zone : string),
  valid_ip ip ->
  exists h,
    addr.fullString ip = Ret h
    /\ addr.bpfFilter dir (A_IP (mkIPAddr ip zone))
       = Ret ("(" +++ dir +++ " host " +++ h +++ ")", None)
    /\ addr.bpfFilter dir (A_TCP (mkTCPAddr None port zone))
       = Ret ("(" +++ dir +++ " port " +++ format_int port +++ ")", None)
    /\ addr.bpfFilter dir (A_TCP (mkTCPAddr ip port zone))
       = Ret ("(" +++ dir +++ " host " +++ h +++ " && " +++ dir +++ " port "
                  +++ format_int port +++ ")", None)
    /\ (forall a, supported a = false ->
        addr.bpfFilter dir a
        = Ret ("", Some (Errorf ("type " +++ addr.type_name a +++ " not support"))))
    /\ (forall a, addr.SrcBPFFilter a = addr.bpfFilter "src" a
                  /\ addr.DstBPFFilter a = addr.bpfFilter "dst" a).
Proof.
  intros dir ip port zone Hv.
  destruct (fullString_valid ip Hv) as [h Hh]. exists h.
  assert (Hnn : is_nil ip = false).
  { apply len_pos_not_nil. destruct Hv as [-> | ->]; reflexivity. }
  repeat split.
  - assumption.
  - unfold addr.bpfFilter. simpl IPAddr_IP. rewrite Hh. reflexivity.
  - unfold addr.bpfFilter. simpl TCPAddr_IP. rewrite Hnn, Hh. reflexivity.
  - intros a Ha. destruct a as [x|x|x|[|] x|[|] x]; try discriminate Ha; reflexivity.
Qed.

Lemma bpfFilter_by_kind_witness :
  addr.DstBPFFilter (A_TCP (mkTCPAddr (net.ParseIP "2001:db8::1") 53 ""))
  = Ret ("(dst host 2001:0db8:0000:0000:0000:0000:0000:0001 && dst port 53)", None)
  /\ addr.SrcBPFFilter (A_IP (mkIPAddr (net.ParseIP "2001:db8::1") ""))
     = Ret ("(src host 2001:0db8:0000:0000:0000:0000:0000:0001)", None).
Proof.
  assert (Hv : valid_ip (net.ParseIP "2001:db8::1")) by (right; reflexivity).
  split.
  - destruct (bpfFilter_by_kind "dst" (net.ParseIP "2001:db8::1") 53 "" Hv)
      as (h & Hh & _ & _ & H & _).
    unfold addr.DstBPFFilter. rewrite H.
    assert (E : Ret h = Ret "2001:0db8:0000:0000:0000:0000:0000:0001")
      by (rewrite <- Hh; reflexivity).
    injection E as ->. reflexivity.
  - destruct (bpfFilter_by_kind "src" (net.ParseIP "2001:db8::1") 53 "" Hv)
      as (h & Hh & H & _).
    unfold addr.SrcBPFFilter. rewrite H.
    assert (E : Ret h = Ret "2001:0db8:0000:0000:0000:0000:0000:0001")
      by (rewrite <- Hh; reflexivity).
    injection E as ->. reflexivity.
Defined.

(* ================================================================== *)
(** ** Endpoint parsing *)
(* ================================================================== *)

(** C9. [ParseAddr] reads [s[0]] before anything else: on the empty
    text the index is out of range and the call panics; no value and
    no error are returned. *)
Theorem ParseAddr_empty_panics :
  addr.ParseAddr "" = Panic (index_out_of_range 0 0)
  /\ forall r, addr.ParseAddr "" <> Ret r.
Proof.
  split; [reflexivity | intros r H; discriminate H].
Qed.

(** *** Strings *)

Lemma substring_all : forall s, substring 0 (String.length s) s = s.
Proof.
  induction s as [|c s IH]; simpl; [reflexivity | now rewrite IH].
Qed.

Lemma str_from_1 : forall c s, str_from (String c s) 1 = Ret s.
Proof.
  intros c s. unfold str_from, str_slice, str_len.
  replace (Z.of_nat (String.length (String c s))) with (Z.of_nat (String.length s) + 1)
    by (simpl String.length; lia).
  replace (Z.of_nat (String.length s) + 1 - 1) with (Z.of_nat (String.length s)) by lia.
  rewrite Nat2Z.id.
  replace ((0 <=? 1) && (1 <=? Z.of_nat (String.length s) + 1)
           && (Z.of_nat (String.length s) + 1 <=? Z.of_nat (String.length s) + 1))
    with true.
  - change (Z.to_nat 1) with 1%nat. simpl substring.
    now rewrite substring_all.
  - symmetry. rewrite !andb_true_iff. repeat split; apply Z.leb_le; lia.
Qed.

Lemma str_index_0 : forall c s, str_index (String c s) 0 = Ret c.
Proof.
  intros c s. unfold str_index, str_len.
  replace (0 <? Z.of_nat (String.length (String c s))) with true
    by (symmetry; apply Z.ltb_lt; simpl String.length; lia).
  reflexivity.
Qed.

(** [ParseAddr] on a text that is not empty: the first character
    chooses between the port grammar and the other two. *)
Lemma ParseAddr_nonempty : forall c s,
  addr.ParseAddr (String c s) =
  if Ascii.eqb c ":" then
    match strconv.ParseUint s 10 16 with
    | (_, Some e) => Ret (None, Some (Wrapf ("parse port " +++ s) e))
    | (port, None) => Ret (Some (A_TCP (mkTCPAddr None port "")), None)
    end
  else
    match addr.ParseTCPAddr (String c s) with
    | (_, Some _) =>
        if is_nil (net.ParseIP (String c s))
        then Ret (None, Some (Errorf ("invalid ip " +++ String c s)))
        else Ret (Some (A_IP (mkIPAddr (net.ParseIP (String c s)) "")), None)
    | (a, None) => Ret (option_map A_TCP a, None)
    end.
Proof.
  intros c s. unfold addr.ParseAddr. rewrite str_index_0. cbn [bind].
  destruct (Ascii.eqb c ":").
  - rewrite str_from_1. cbn [bind].
    destruct (strconv.ParseUint s 10 16) as [port [e|]]; reflexivity.
  - destruct (addr.ParseTCPAddr (String c s)) as [a [e|]]; reflexivity.
Qed.

(** *** Dotted IPv4 text and decimal ports *)

Lemma octet_facts : forall b : byte, octet_ok b = true.
Proof. intros b; destruct b; vm_compute; reflexivity. Qed.

Lemma all_from_spec : forall f count from,
  all_from f count from = true ->
  forall z, from <= z < from + Z.of_nat count -> f z = true.
Proof.
  induction count as [|count IH]; intros from H z Hz.
  - lia.
  - cbn [all_from] in H. apply andb_true_iff in H as [H0 H1].
    destruct (Z.eq_dec z from) as [->|Hne]; [assumption|].
    apply (IH (from + 1) H1). lia.
Qed.

Lemma port_facts : all_from port_ok (Z.to_nat 65536) 0 = true.
Proof. vm_cast_no_check (eq_refl true). Qed.

Lemma port_text : forall port, 0 <= port < 65536 ->
  all_chars is_digit (net.uitoa port) = true
  /\ strconv.ParseUint (net.uitoa port) 10 16 = (port, None).
Proof.
  intros port Hp.
  assert (H : port_ok port = true).
  { apply (all_from_spec port_ok (Z.to_nat 65536) 0 port_facts). lia. }
  unfold port_ok in H.
  apply andb_true_iff in H as [Hd Hv]. split; [assumption|].
  destruct (strconv.ParseUint (net.uitoa port) 10 16) as [v [e|]]; [discriminate Hv|].
  apply Z.eqb_eq in Hv. now subst.
Qed.

Lemma octet_text : forall b : byte,
  all_chars is_digit (dec b) = true
  /\ dec b <> ""
  /\ net.dtoi (dec b) = (Z_of_byte b, String.length (dec b), true)
  /\ (Z_of_byte b >? 255) = false
  /\ Nat.ltb 1 (String.length (dec b)) && net.head_is (dec b) "0" = false
  /\ byte_of_Z (Z_of_byte b) = b.
Proof.
  intros b. pose proof (octet_facts b) as H. unfold octet_ok in H.
  apply andb_true_iff in H as [H Hb].
  apply andb_true_iff in H as [H Hz].
  apply andb_true_iff in H as [H H255].
  apply andb_true_iff in H as [H Hv].
  apply andb_true_iff in H as [Hd Hne].
  repeat split.
  - assumption.
  - intros E. rewrite E in Hne. discriminate Hne.
  - destruct (net.dtoi (dec b)) as [[n c] ok].
    apply andb_true_iff in Hv as [Hv Hok].
    apply andb_true_iff in Hv as [Hn Hc].
    apply Z.eqb_eq in Hn. apply Nat.eqb_eq in Hc. now subst.
  - rewrite Z.gtb_ltb. apply Z.ltb_ge. now apply Z.leb_le.
  - now apply negb_true_iff.
  - now apply Byte.byte_dec_bl in Hb.
Qed.

Lemma dtoi_loop_app : forall ds rest n i,
  all_chars is_digit ds = true -> nondigit_head rest ->
  net.dtoi_loop (ds +++ rest) n i = net.dtoi_loop ds n i.
Proof.
  induction ds as [|c ds IH]; intros rest n i Hd Hr.
  - cbn [String.append net.dtoi_loop].
    destruct rest as [|ch r]; [reflexivity|].
    cbn [net.dtoi_loop nondigit_head] in *. unfold is_digit in Hr. now rewrite Hr.
  - cbn [all_chars] in Hd. apply andb_true_iff in Hd as [Hc Hds].
    cbn [String.append net.dtoi_loop]. unfold is_digit in Hc. rewrite Hc.
    destruct (n * 10 + (code c - code "0") >=? net.big); [reflexivity|].
    now apply IH.
Qed.

Lemma str_drop_app : forall ds rest, str_drop (String.length ds) (ds +++ rest) = rest.
Proof.
  induction ds as [|c ds IH]; intros rest; [reflexivity | apply IH].
Qed.

Lemma append_not_empty : forall ds rest, ds <> "" -> String.eqb (ds +++ rest) "" = false.
Proof.
  intros [|c ds] rest H; [congruence | reflexivity].
Qed.

Lemma head_is_app : forall ds rest c, ds <> "" ->
  net.head_is (ds +++ rest) c = net.head_is ds c.
Proof.
  intros [|d ds] rest c H; [congruence | reflexivity].
Qed.

(** One octet read by [parseIPv4]. *)
Lemma parseIPv4_octet : forall todo b rest p,
  nondigit_head rest ->
  net.parseIPv4_loop (S todo)
    (match p with [] => dec b +++ rest | _ => String "." (dec b +++ rest) end) p
  = net.parseIPv4_loop todo rest (p ++ [b]).
Proof.
  intros todo b rest p Hr.
  destruct (octet_text b) as (Hd & Hne & Hv & H255 & Hz & Hb).
  assert (Hstep :
    (let '(n, c, ok) := net.dtoi (dec b +++ rest) in
     if negb ok || (n >? 255) then None
     else if Nat.ltb 1 c && net.head_is (dec b +++ rest) "0" then None
          else net.parseIPv4_loop todo (str_drop c (dec b +++ rest)) (p ++ [byte_of_Z n]))
    = net.parseIPv4_loop todo rest (p ++ [b])).
  { unfold net.dtoi. rewrite (dtoi_loop_app _ _ _ _ Hd Hr).
    change (net.dtoi_loop (dec b) 0 0) with (net.dtoi (dec b)). rewrite Hv.
    cbn [negb orb]. rewrite H255, (head_is_app _ _ _ Hne), Hz, str_drop_app, Hb.
    reflexivity. }
  destruct p as [|x p].
  - cbn [net.parseIPv4_loop List.length Nat.ltb Nat.leb].
    rewrite (append_not_empty _ _ Hne). exact Hstep.
  - cbn [net.parseIPv4_loop]. exact Hstep.
Qed.

Lemma dotted_dotted4 : forall a b c d, net.dotted [a; b; c; d] = dotted4 a b c d.
Proof. reflexivity. Qed.

Lemma parseIPv4_dotted : forall a b c d,
  net.parseIPv4 (dotted4 a b c d) = net.IPv4 a b c d.
Proof.
  intros a b c d. unfold net.parseIPv4, dotted4.
  rewrite (parseIPv4_octet 3 a _ []) by reflexivity.
  rewrite (parseIPv4_octet 2 b _ [a]) by reflexivity.
  rewrite (parseIPv4_octet 1 c _ [a; b]) by reflexivity.
  pose proof (parseIPv4_octet 0 d "" [a; b; c] I) as H.
  assert (E : dec d +++ "" = dec d).
  { clear. induction (dec d) as [|x s IH]; simpl; [reflexivity | now rewrite IH]. }
  rewrite E in H. cbn [app] in *. rewrite H. reflexivity.
Qed.

Lemma all_chars_impl : forall (f g : ascii -> bool) s,
  (forall c, f c = true -> g c = true) -> all_chars f s = true -> all_chars g s = true.
Proof.
  intros f g s Hfg. induction s as [|c s IH]; cbn [all_chars]; [reflexivity|].
  intros H. apply andb_true_iff in H as [Hc Hs].
  now rewrite (Hfg c Hc), (IH Hs).
Qed.

Lemma all_chars_app : forall f s t,
  all_chars f (s +++ t) = all_chars f s && all_chars f t.
Proof.
  intros f s t. induction s as [|c s IH]; cbn [String.append all_chars];
    [reflexivity | now rewrite IH, andb_assoc].
Qed.

Lemma all_chars_lacks : forall f s c,
  all_chars f s = true -> f c = false -> IndexByte s c = None.
Proof.
  intros f s c. induction s as [|d s IH]; cbn [all_chars IndexByte]; [reflexivity|].
  intros H Hc. apply andb_true_iff in H as [Hd Hs].
  destruct (Ascii.eqb_spec d c) as [->|_]; [congruence|].
  now rewrite (IH Hs Hc).
Qed.

Lemma digit_plain : forall c, is_digit c = true ->
  negb (Ascii.eqb c ":") && negb (Ascii.eqb c "[") && negb (Ascii.eqb c "]") = true.
Proof.
  intros c H.
  destruct (Ascii.eqb_spec c ":") as [->|_]; [discriminate H|].
  destruct (Ascii.eqb_spec c "[") as [->|_]; [discriminate H|].
  destruct (Ascii.eqb_spec c "]") as [->|_]; [discriminate H|].
  reflexivity.
Qed.

Lemma digits_plain : forall s, all_chars is_digit s = true -> plain s = true.
Proof.
  intros s. apply all_chars_impl. exact digit_plain.
Qed.

Lemma plain_lacks : forall s, plain s = true ->
  IndexByte s ":" = None /\ IndexByte s "[" = None /\ IndexByte s "]" = None.
Proof.
  intros s H. repeat split; apply (all_chars_lacks _ _ _ H); reflexivity.
Qed.

Lemma dotted4_plain : forall a b c d, plain (dotted4 a b c d) = true.
Proof.
  intros a b c d. unfold dotted4, plain.
  repeat (rewrite all_chars_app || cbn [all_chars]).
  fold (plain (dec a)); fold (plain (dec b)); fold (plain (dec c)); fold (plain (dec d)).
  rewrite !digits_plain by apply octet_text. reflexivity.
Qed.

Lemma LastIndexByte_none : forall s c, IndexByte s c = None -> LastIndexByte s c = None.
Proof.
  induction s as [|d s IH]; intros c; cbn [IndexByte LastIndexByte]; [reflexivity|].
  destruct (Ascii.eqb d c); [discriminate|].
  destruct (IndexByte s c) eqn:E; [discriminate|].
  intros _. now rewrite (IH c E).
Qed.

Lemma LastIndexByte_sep : forall h p c,
  IndexByte p c = None ->
  LastIndexByte (h +++ String c p) c = Some (String.length h).
Proof.
  intros h p c Hp. induction h as [|d h IH].
  - cbn [String.append LastIndexByte]. rewrite (LastIndexByte_none _ _ Hp).
    now rewrite Ascii.eqb_refl.
  - cbn [String.append LastIndexByte String.length]. now rewrite IH.
Qed.

Lemma IndexByte_app_none : forall s t c,
  IndexByte s c = None -> IndexByte t c = None -> IndexByte (s +++ t) c = None.
Proof.
  induction s as [|d s IH]; intros t c Hs Ht; cbn [String.append IndexByte] in *;
    [assumption|].
  destruct (Ascii.eqb d c); [discriminate|].
  destruct (IndexByte s c) eqn:E; [discriminate|].
  now rewrite (IH t c E Ht).
Qed.

Lemma str_take_app : forall h t, str_take (String.length h) (h +++ t) = h.
Proof.
  induction h as [|c h IH]; intros t; cbn [String.length String.append str_take].
  - now destruct t.
  - now rewrite IH.
Qed.

Lemma str_drop_sep : forall h c p, str_drop (S (String.length h)) (h +++ String c p) = p.
Proof.
  induction h as [|d h IH]; intros c p; [reflexivity | apply IH].
Qed.

(** [SplitHostPort] on a host and a port joined by a colon, neither
    holding a colon or a bracket. *)
Lemma SplitHostPort_plain : forall h p,
  plain h = true -> plain p = true ->
  net.SplitHostPort (h +++ String ":" p) = (h, p, None).
Proof.
  intros h p Hh Hp.
  destruct (plain_lacks h Hh) as (Hh1 & Hh2 & Hh3).
  destruct (plain_lacks p Hp) as (Hp1 & Hp2 & Hp3).
  unfold net.SplitHostPort.
  rewrite (LastIndexByte_sep h p ":" Hp1).
  assert (Hhead : net.head_is (h +++ String ":" p) "[" = false).
  { destruct h as [|c h]; [reflexivity|].
    cbn [String.append net.head_is]. cbn [IndexByte] in Hh2.
    destruct (Ascii.eqb c "["); [discriminate Hh2 | reflexivity]. }
  rewrite Hhead, str_take_app. unfold net.has_byte. rewrite Hh1.
  rewrite (str_drop_sep h ":" p).
  change (str_drop 0 (h +++ String ":" p)) with (h +++ String ":" p).
  rewrite (IndexByte_app_none h (String ":" p) "[" Hh2)
    by (cbn [IndexByte]; change (Ascii.eqb ":" "[") with false; now rewrite Hp2).
  rewrite (IndexByte_app_none h (String ":" p) "]" Hh3)
    by (cbn [IndexByte]; change (Ascii.eqb ":" "]") with false; now rewrite Hp3).
  reflexivity.
Qed.

Lemma ParseIP_scan_digits : forall ds rest s0,
  all_chars is_digit ds = true ->
  net.ParseIP_scan s0 (ds +++ String "." rest) = net.parseIPv4 s0.
Proof.
  induction ds as [|c ds IH]; intros rest s0 H.
  - reflexivity.
  - cbn [all_chars] in H. apply andb_true_iff in H as [Hc Hds].
    cbn [String.append net.ParseIP_scan].
    destruct (Ascii.eqb_spec c ".") as [->|_]; [discriminate Hc|].
    destruct (Ascii.eqb_spec c ":") as [->|_]; [discriminate Hc|].
    now apply IH.
Qed.

Lemma ParseIP_dotted : forall a b c d,
  net.ParseIP (dotted4 a b c d) = net.IPv4 a b c d.
Proof.
  intros a b c d. unfold net.ParseIP.
  rewrite <- parseIPv4_dotted.
  unfold dotted4 at 2. apply ParseIP_scan_digits, octet_text.
Qed.

(** [ParseAddr] on a text that does not start with a colon. *)
Lemma ParseAddr_not_colon : forall s,
  s <> "" -> starts_with_colon s = false ->
  addr.ParseAddr s =
  match addr.ParseTCPAddr s with
  | (_, Some _) =>
      if is_nil (net.ParseIP s) then Ret (None, Some (Errorf ("invalid ip " +++ s)))
      else Ret (Some (A_IP (mkIPAddr (net.ParseIP s) "")), None)
  | (a, None) => Ret (option_map A_TCP a, None)
  end.
Proof.
  intros [|c s] Hne Hc; [congruence|].
  rewrite ParseAddr_nonempty. unfold starts_with_colon in Hc. cbn [net.head_is] in Hc.
  now rewrite Hc.
Qed.

Lemma dotted4_head : forall a b c d,
  dotted4 a b c d <> "" /\ starts_with_colon (dotted4 a b c d) = false.
Proof.
  intros a b c d. destruct (octet_text a) as (Hd & Hne & _).
  unfold dotted4, starts_with_colon.
  destruct (dec a) as [|x s]; [congruence|].
  cbn [all_chars] in Hd. apply andb_true_iff in Hd as [Hx _].
  split; [discriminate|]. cbn [String.append net.head_is].
  destruct (Ascii.eqb_spec x ":") as [->|_]; [discriminate Hx | reflexivity].
Qed.

Lemma dotted4_port_head : forall a b c d p,
  dotted4 a b c d +++ p <> "" /\ starts_with_colon (dotted4 a b c d +++ p) = false.
Proof.
  intros a b c d p. destruct (dotted4_head a b c d) as [Hne Hc].
  destruct (dotted4 a b c d) as [|x s]; [congruence|].
  split; [discriminate | exact Hc].
Qed.

(** A dotted IPv4 text followed by a colon and a decimal port. *)
Lemma ParseAddr_dotted_port : forall a b c d port,
  0 <= port < 65536 ->
  addr.ParseAddr (dotted4 a b c d +++ String ":" (net.uitoa port))
  = Ret (Some (A_TCP (mkTCPAddr (net.IPv4 a b c d) port "")), None).
Proof.
  intros a b c d port Hp.
  destruct (port_text port Hp) as [Hd Hv].
  destruct (dotted4_port_head a b c d (String ":" (net.uitoa port))) as [Hne Hc].
  rewrite (ParseAddr_not_colon _ Hne Hc).
  unfold addr.ParseTCPAddr.
  rewrite (SplitHostPort_plain _ _ (dotted4_plain a b c d) (digits_plain _ Hd)).
  rewrite ParseIP_dotted, Hv. reflexivity.
Qed.

(** A bare dotted IPv4 text. *)
Lemma ParseAddr_dotted : forall a b c d,
  addr.ParseAddr (dotted4 a b c d)
  = Ret (Some (A_IP (mkIPAddr (net.IPv4 a b c d) "")), None).
Proof.
  intros a b c d.
  destruct (dotted4_head a b c d) as [Hne Hc].
  rewrite (ParseAddr_not_colon _ Hne Hc).
  unfold addr.ParseTCPAddr, net.SplitHostPort.
  destruct (plain_lacks _ (dotted4_plain a b c d)) as (H1 & _).
  rewrite (LastIndexByte_none _ _ H1). cbn [net.addrErr].
  rewrite ParseIP_dotted. reflexivity.
Qed.

(** C7, as stated, fails: a bare IPv6 text that starts with a colon is
    a valid IP, yet [ParseAddr] reads it as a port and returns an
    error; and a valid IPv6 text followed by a colon and a port is not
    read as that IP and that port. *)
Lemma ParseAddr_grammars_counterexample :
  net.ParseIP "::1" = Some (net.zeros 15 ++ [x01])
  /\ addr.ParseAddr "::1"
     = Ret (None, Some (Wrapf "parse port :1" (NumError "ParseUint" ":1" ErrSyntax)))
  /\ net.ParseIP "2001:db8::1" <> None
  /\ strconv.ParseUint "80" 10 16 = (80, None)
  /\ addr.ParseAddr "2001:db8::1:80"
     = Ret (Some (A_IP (mkIPAddr (net.ParseIP "2001:db8::1:80") "")), None).
Proof.
  repeat split; try reflexivity. discriminate.
Qed.

(** C7, amended. [ParseAddr] looks at the first character first.  A
    text that starts with a colon is read as ":port" only: it yields a
    TCP endpoint without IP when the rest parses as an unsigned 16-bit
    integer.  Any other text that [SplitHostPort] splits into a valid
    IP and such a port yields the TCP endpoint with that IP and port,
    and any other text that is a valid IP yields the point-IP endpoint.
    Every dotted IPv4 text, with or without a decimal port, is read as
    the specification says. *)
Theorem ParseAddr_grammars :
  (forall p port,
      strconv.ParseUint p 10 16 = (port, None) ->
      addr.ParseAddr (String ":" p) = Ret (Some (A_TCP (mkTCPAddr None port "")), None))
  /\ (forall s h p ip port,
      starts_with_colon s = false ->
      net.SplitHostPort s = (h, p, None) ->
      net.ParseIP h = Some ip ->
      strconv.ParseUint p 10 16 = (port, None) ->
      addr.ParseAddr s = Ret (Some (A_TCP (mkTCPAddr (Some ip) port "")), None))
  /\ (forall s ip,
      starts_with_colon s = false ->
      snd (addr.ParseTCPAddr s) <> None ->
      net.ParseIP s = Some ip ->
      addr.ParseAddr s = Ret (Some (A_IP (mkIPAddr (Some ip) "")), None))
  /\ (forall a b c d port,
      0 <= port < 65536 ->
      addr.ParseAddr (net.dotted [a; b; c; d] +++ ":" +++ net.uitoa port)
      = Ret (Some (A_TCP (mkTCPAddr (net.IPv4 a b c d) port "")), None))
  /\ (forall a b c d,
      addr.ParseAddr (net.dotted [a; b; c; d])
      = Ret (Some (A_IP (mkIPAddr (net.IPv4 a b c d) "")), None)).
Proof.
  split; [|split; [|split; [|split]]].
  - intros p port Hp. rewrite ParseAddr_nonempty. cbn [Ascii.eqb Bool.eqb].
    now rewrite Hp.
  - intros s h p ip port Hc Hs Hip Hp.
    assert (Hne : s <> "") by (intros ->; discriminate Hs).
    rewrite (ParseAddr_not_colon s Hne Hc).
    unfold addr.ParseTCPAddr. rewrite Hs, Hip, Hp. reflexivity.
  - intros s ip Hc Ht Hip.
    assert (Hne : s <> "") by (intros ->; discriminate Hip).
    rewrite (ParseAddr_not_colon s Hne Hc).
    destruct (addr.ParseTCPAddr s) as [a [e|]]; [|now elim Ht].
    rewrite Hip. reflexivity.
  - intros a b c d port Hp. rewrite dotted_dotted4.
    exact (ParseAddr_dotted_port a b c d port Hp).
  - intros a b c d. rewrite dotted_dotted4. apply ParseAddr_dotted.
Qed.

Lemma ParseAddr_grammars_witness :
  addr.ParseAddr ":53" = Ret (Some (A_TCP (mkTCPAddr None 53 "")), None)
  /\ addr.ParseAddr "[::1]:80"
     = Ret (Some (A_TCP (mkTCPAddr (Some (net.zeros 15 ++ [x01])) 80 "")), None)
  /\ addr.ParseAddr "2001:db8::1"
     = Ret (Some (A_IP (mkIPAddr (Some [x20; x01; x0d; xb8; x00; x00; x00; x00;
                                        x00; x00; x00; x00; x00; x00; x00; x01]) "")), None)
  /\ addr.ParseAddr "10.0.0.1:53"
     = Ret (Some (A_TCP (mkTCPAddr (net.IPv4 x0a x00 x00 x01) 53 "")), None).
Proof.
  destruct ParseAddr_grammars as (H1 & H2 & H3 & H4 & _).
  split; [|split; [|split]].
  - apply (H1 "53" 53). reflexivity.
  - apply (H2 "[::1]:80" "::1" "80"); reflexivity.
  - apply (H3 "2001:db8::1"); [reflexivity | discriminate | reflexivity].
  - apply (H4 x0a x00 x00 x01 53). lia.
Defined.

(** C8, as stated, fails for [ParseAddr]: with a valid IP and a port
    that is out of range the error calls the whole text an invalid IP
    and does not single out the port; with a bad IP and a good port it
    names the whole text, not the IP part. *)
Lemma parse_errors_counterexample :
  net.SplitHostPort "10.0.0.1:99999" = ("10.0.0.1", "99999", None)
  /\ net.ParseIP "10.0.0.1" <> None
  /\ strconv.ParseUint "99999" 10 16 = (65535, Some (NumError "ParseUint" "99999" ErrRange))
  /\ addr.ParseTCPAddr "10.0.0.1:99999"
     = (None, Some (Wrapf "parse port 99999" (NumError "ParseUint" "99999" ErrRange)))
  /\ addr.ParseAddr "10.0.0.1:99999" = Ret (None, Some (Errorf "invalid ip 10.0.0.1:99999"))
  /\ addr.ParseTCPAddr "10.0.0.256:53" = (None, Some (Errorf "invalid ip 10.0.0.256"))
  /\ addr.ParseAddr "10.0.0.256:53" = Ret (None, Some (Errorf "invalid ip 10.0.0.256:53")).
Proof.
  repeat split; try reflexivity. discriminate.
Qed.

(** C8, amended. [ParseTCPAddr] names what failed: the text that does
    not split, the host that is not an IP, or the port that is not an
    unsigned 16-bit integer.  [ParseAddr] names the port only for a
    text that starts with a colon; for any other text that fails it
    reports an invalid IP and names the whole text, whichever part
    failed.  An error never comes with an endpoint. *)
Theorem parse_errors_name_text : forall s e,
  (forall a, addr.ParseTCPAddr s = (a, Some e) ->
     a = None
     /\ ((exists cause,
            snd (net.SplitHostPort s) = Some cause /\ e = Wrapf "split host port" cause)
         \/ (exists h p,
               net.SplitHostPort s = (h, p, None)
               /\ ((net.ParseIP h = None /\ e = Errorf ("invalid ip " +++ h))
                   \/ (net.ParseIP h <> None
                       /\ exists cause,
                            snd (strconv.ParseUint p 10 16) = Some cause
                            /\ e = Wrapf ("parse port " +++ p) cause)))))
  /\ (forall a, addr.ParseAddr s = Ret (a, Some e) ->
     a = None
     /\ ((exists p cause,
            s = String ":" p
            /\ snd (strconv.ParseUint p 10 16) = Some cause
            /\ e = Wrapf ("parse port " +++ p) cause)
         \/ (starts_with_colon s = false
             /\ snd (addr.ParseTCPAddr s) <> None
             /\ net.ParseIP s = None
             /\ e = Errorf ("invalid ip " +++ s)))).
Proof.
  intros s e. split.
  - intros a H. unfold addr.ParseTCPAddr in H.
    destruct (net.SplitHostPort s) as [[h p] [se|]].
    + inversion H; subst. split; [reflexivity|]. left. now exists se.
    + destruct (net.ParseIP h) as [ip|] eqn:Hip; cbn [is_nil] in H.
      * destruct (strconv.ParseUint p 10 16) as [port [pe|]] eqn:Hp;
          inversion H; subst.
        split; [reflexivity|]. right. exists h, p. split; [reflexivity|].
        right. split; [rewrite Hip; discriminate|]. exists pe. rewrite Hp.
        split; reflexivity.
      * inversion H; subst. split; [reflexivity|]. right. exists h, p.
        split; [reflexivity|]. left. now split.
  - intros a H. destruct s as [|c s]; [discriminate H|].
    rewrite ParseAddr_nonempty in H.
    destruct (Ascii.eqb_spec c ":") as [->|Hc].
    + destruct (strconv.ParseUint s 10 16) as [port [pe|]] eqn:Hp;
        inversion H; subst.
      split; [reflexivity|]. left. exists s, pe. rewrite Hp. repeat split; reflexivity.
    + assert (Hsc : starts_with_colon (String c s) = false).
      { unfold starts_with_colon. cbn [net.head_is].
        destruct (Ascii.eqb_spec c ":"); [contradiction | reflexivity]. }
      destruct (addr.ParseTCPAddr (String c s)) as [t [te|]] eqn:Ht.
      * destruct (net.ParseIP (String c s)) as [ip|] eqn:Hip; cbn [is_nil] in H;
          inversion H; subst.
        split; [reflexivity|]. right. repeat split; try assumption. discriminate.
      * inversion H.
Qed.

Lemma parse_errors_name_text_witness :
  exists cause,
    snd (strconv.ParseUint "99999" 10 16) = Some cause
    /\ Wrapf "parse port 99999" (NumError "ParseUint" "99999" ErrRange)
       = Wrapf ("parse port " +++ "99999") cause.
Proof.
  destruct (parse_errors_name_text ":99999"
              (Wrapf "parse port 99999" (NumError "ParseUint" "99999" ErrRange)))
    as [_ H].
  destruct (H None eq_refl) as [_ [(p & cause & Hs & Hc & He) | (Hc & _)]].
  - injection Hs as <-. exists cause. split; assumption.
  - discriminate Hc.
Defined.

(* ================================================================== *)
(** ** The connection *)
(* ================================================================== *)

Import pcap.

Lemma wrap_int_id : forall z, int_min <= z <= int_max -> wrap_int z = z.
Proof.
  intros z. unfold int_min, int_max, wrap_int.
  change (2 ^ 63) with 9223372036854775808.
  change (2 ^ 64) with 18446744073709551616.
  intros H. rewrite Z.mod_small; lia.
Qed.

Lemma index_nth : forall (A : Type) (s : slice A) (i : Z) (a : A),
  0 <= i -> nth_error (elems s) (Z.to_nat i) = Some a -> index s i = Ret a.
Proof.
  intros A s i a Hi Hn. unfold index.
  assert (Hlt : i < len s).
  { unfold len. pose proof (nth_error_Some (elems s) (Z.to_nat i)) as [Hl _].
    assert (Z.to_nat i < List.length (elems s))%nat by (apply Hl; congruence). lia. }
  replace (0 <=? i) with true by (symmetry; now apply Z.leb_le).
  replace (i <? len s) with true by (symmetry; now apply Z.ltb_lt).
  cbn [andb]. now rewrite Hn.
Qed.

Lemma nth_in_range : forall (A : Type) (s : slice A) (i : Z),
  0 <= i < len s -> exists a, nth_error (elems s) (Z.to_nat i) = Some a.
Proof.
  intros A s i Hi. unfold len in Hi.
  destruct (nth_error (elems s) (Z.to_nat i)) as [a|] eqn:E; [now exists a|].
  apply nth_error_None in E. lia.
Qed.

Lemma slice_to_copy : forall (buf data : list byte),
  (List.length data <= List.length buf)%nat ->
  slice_to (copy buf data) (Z.of_nat (List.length data)) = Ret data.
Proof.
  intros buf data Hle. unfold slice_to, copy.
  rewrite firstn_all2 by assumption.
  rewrite length_app, length_skipn.
  replace (0 <=? Z.of_nat (List.length data)) with true
    by (symmetry; apply Z.leb_le; lia).
  replace (Z.of_nat (List.length data)
           <=? Z.of_nat (List.length data + (List.length buf - List.length data)))
    with true by (symmetry; apply Z.leb_le; lia).
  cbn [andb]. rewrite Nat2Z.id.
  rewrite firstn_app, firstn_all, Nat.sub_diag. cbn [firstn]. now rewrite app_nil_r.
Qed.

Section ConnProps.

Context {S C D : Type} {NC : NetConn S} {CR : Crypt C} {DS : Desticker D}.

(** The tail of [Read] on a cursor that points at a frame. *)
Lemma readStashed_at : forall (c : TCPConn S C D) b calls pkt,
  0 <= stashId c < int_max ->
  nth_error (elems (stash c)) (Z.to_nat (stashId c)) = Some pkt ->
  readStashed c b calls
  = Ret (mkReadResult (Z.of_nat (List.length pkt)) None (copy b pkt)
           (set_stashId c (stashId c + 1)) calls).
Proof.
  intros c b calls pkt Hi Hn. unfold readStashed.
  rewrite (index_nth _ _ _ _ (proj1 Hi) Hn). cbn [bind].
  cbn [set_stashId stash stashId].
  assert (Hw : wrap_int (stashId c + 1) = stashId c + 1).
  { apply wrap_int_id. unfold int_min, int_max in *. lia. }
  rewrite Hw.
  replace (wrap_int (stashId c + 1 - 1)) with (stashId c)
    by (replace (stashId c + 1 - 1) with (stashId c) by lia;
        symmetry; apply wrap_int_id; unfold int_min, int_max in *; lia).
  rewrite (index_nth _ _ _ _ (proj1 Hi) Hn). reflexivity.
Qed.

Lemma exhausted_test : forall c : TCPConn S C D,
  cursor_ok c ->
  is_nil (stash c) || (len (stash c) <=? stashId c) = negb (stashId c <? len (stash c)).
Proof.
  intros c [H0 H1].
  destruct (Z.ltb_spec (stashId c) (len (stash c))) as [Hlt|Hge]; cbn [negb].
  - rewrite (len_pos_not_nil _ (stash c)) by lia.
    cbn [orb]. apply Z.leb_gt. assumption.
  - replace (len (stash c) <=? stashId c) with true by (symmetry; now apply Z.leb_le).
    apply orb_true_r.
Qed.

Lemma draining_or_awaiting : forall c : TCPConn S C D,
  cursor_ok c -> (draining c /\ ~ awaiting c) \/ (awaiting c /\ ~ draining c).
Proof.
  intros c [H0 H1]. unfold draining, awaiting.
  destruct (Z.eq_dec (stashId c) (len (stash c))); [right | left]; lia.
Qed.

(** [Read] while frames are left in the stash. *)
Lemma Read_draining : forall (c : TCPConn S C D) b,
  draining c -> stash_is_slice c ->
  exists pkt,
    nth_error (elems (stash c)) (Z.to_nat (stashId c)) = Some pkt
    /\ Read c b = Ret (mkReadResult (Z.of_nat (List.length pkt)) None (copy b pkt)
                         (set_stashId c (stashId c + 1)) []).
Proof.
  intros c b Hd Hs. destruct (nth_in_range _ _ _ Hd) as [pkt Hp].
  exists pkt. split; [assumption|].
  unfold Read. rewrite exhausted_test by (unfold cursor_ok, draining in *; lia).
  replace (stashId c <? len (stash c)) with true
    by (symmetry; apply Z.ltb_lt; apply Hd).
  cbn [negb]. apply readStashed_at; [|assumption].
  unfold draining, stash_is_slice in *. lia.
Qed.

(** [Read] once the stash is used up: one socket read, then the codec,
    then the frame extractor, each able to end the call. *)
Lemma Read_awaiting : forall (c : TCPConn S C D) b,
  awaiting c ->
  Read c b =
  let cap := Z.of_nat (List.length (buffer c)) in
  let '(data, err, s) := conn_Read (conn c) cap in
  let c1 := set_conn (set_buffer c (copy (buffer c) data)) s in
  match err with
  | Some e => Ret (mkReadResult 0 (Some e) b c1 [SockRead cap])
  | None =>
      let '(dp, err, k) := Decrypt (crypt c) data in
      let c2 := set_crypt c1 k in
      match err with
      | Some e =>
          Ret (mkReadResult 0 (Some (opError "read" c2 (Wrapf "decrypt" e))) b c2
                 [SockRead cap; CryptDecrypt data])
      | None =>
          let '(packets, err, d) := Append (destick c) dp in
          let c3 := set_destick c2 d in
          let calls := [SockRead cap; CryptDecrypt data; DestickAppend dp] in
          match err with
          | Some e =>
              Ret (mkReadResult 0 (Some (opError "read" c3 (Wrapf "destick" e))) b c3 calls)
          | None =>
              if len packets =? 0 then Ret (mkReadResult 0 None b c3 calls)
              else readStashed (set_stashId (set_stash c3 packets) 0) b calls
          end
      end
  end.
Proof.
  intros c b Ha. unfold Read.
  replace (len (stash c) <=? stashId c) with true
    by (symmetry; apply Z.leb_le; unfold awaiting in Ha; lia).
  rewrite orb_true_r. cbv zeta.
  destruct (conn_Read (conn c) (Z.of_nat (List.length (buffer c))))
    as [[data [e|]] s] eqn:Hr; [reflexivity|].
  assert (Hle : (List.length data <= List.length (buffer c))%nat).
  { pose proof (conn_Read_le _ _ _ _ _ (Nat2Z.is_nonneg _) Hr). lia. }
  cbn [buffer set_conn set_buffer crypt].
  rewrite (slice_to_copy _ _ Hle). cbn [bind].
  destruct (Decrypt (crypt c) data) as [[dp [e|]] k]; [reflexivity|].
  change (destick (set_crypt (set_conn (set_buffer c (copy (buffer c) data)) s) k))
    with (destick c).
  destruct (Append (destick c) dp) as [[packets [e|]] d]; reflexivity.
Qed.

(** A [Read] on a connection whose cursor is within its stash returns,
    and leaves the cursor within the stash. *)
Lemma Read_keeps_cursor : forall (c : TCPConn S C D) b,
  cursor_ok c -> stash_is_slice c ->
  exists r, Read c b = Ret r /\ cursor_ok (r_conn r).
Proof.
  intros c b Hc Hs.
  destruct (draining_or_awaiting c Hc) as [[Hd _]|[Ha _]].
  - destruct (Read_draining c b Hd Hs) as (pkt & _ & HR).
    eexists. split; [exact HR|].
    unfold cursor_ok, draining in *. cbn. lia.
  - rewrite (Read_awaiting c b Ha). cbv zeta.
    destruct (conn_Read (conn c) (Z.of_nat (List.length (buffer c))))
      as [[data [e|]] s]; [eexists; split; [reflexivity | exact Hc]|].
    destruct (Decrypt (crypt c) data) as [[dp [e|]] k];
      [eexists; split; [reflexivity | exact Hc]|].
    destruct (Append (destick c) dp) as [[packets [e|]] d];
      [eexists; split; [reflexivity | exact Hc]|].
    destruct (Z.eqb_spec (len packets) 0) as [H0|H0];
      [eexists; split; [reflexivity | exact Hc]|].
    assert (Hpos : 0 <= 0 < len packets) by (unfold len in *; lia).
    destruct (nth_in_range _ packets 0 Hpos) as [pkt Hp].
    rewrite (readStashed_at _ b _ pkt); [| cbn; unfold int_max; lia | exact Hp].
    eexists. split; [reflexivity|]. unfold cursor_ok. cbn. lia.
Qed.

(** [Write] leaves the stash and its cursor alone. *)
Lemma Write_keeps_stash : forall (c : TCPConn S C D) b,
  stash (w_conn (Write c b)) = stash c /\ stashId (w_conn (Write c b)) = stashId c.
Proof.
  intros c b. unfold Write.
  destruct (Encrypt (crypt c) b) as [[contents [e|]] k]; [split; reflexivity|].
  change (conn (set_crypt c k)) with (conn c).
  destruct (conn_Write (conn c) contents) as [[n err] s]. split; reflexivity.
Qed.

(** Every reachable connection keeps its cursor within its stash. *)
Lemma reachable_cursor : forall c : TCPConn S C D,
  reachable c -> cursor_ok c /\ stash_is_slice c.
Proof.
  induction 1 as [s k | c b r Hc IH HR Hs | c b Hc IH].
  - split; [unfold cursor_ok | unfold stash_is_slice, int_max]; cbn; lia.
  - split; [|assumption]. destruct IH as [IHc IHs].
    destruct (Read_keeps_cursor c b IHc IHs) as (r' & HR' & Hc').
    rewrite HR in HR'. now injection HR' as <-.
  - destruct (Write_keeps_stash c b) as [E1 E2].
    unfold cursor_ok, stash_is_slice in *. now rewrite E1, E2.
Qed.

(** C1. On every reachable connection the cursor is within the stash
    (and the stash is a Go slice).  On every connection in that
    condition, reachable or not, exactly one of the two states holds
    and [Read] returns and keeps the cursor within the stash.  While
    the cursor is below the stash length, [Read] is a memory copy: its
    whole result is the frame under the cursor copied into the caller's
    buffer, the frame's length, no error, the cursor advanced by one,
    nothing else of the connection changed, and no call on any
    collaborator.  When the cursor equals the stash length, whatever
    the socket read returns, [Read] makes that read first, into the
    whole buffer, and no other socket call; and whenever that read, the
    decryption and the frame extractor succeed with at least one frame,
    the result is that of the stash read on the connection whose stash
    is the extracted frames and whose cursor is zero: the first frame
    is delivered and the connection is left with those frames as its
    stash and the cursor at one. *)
Theorem Read_state_machine : forall (c : TCPConn S C D) (b : list byte),
  (reachable c -> cursor_ok c /\ stash_is_slice c)
  /\ (cursor_ok c -> stash_is_slice c ->
      ((draining c /\ ~ awaiting c) \/ (awaiting c /\ ~ draining c))
      /\ (exists r, Read c b = Ret r /\ cursor_ok (r_conn r))
      /\ (draining c ->
          exists pkt,
            index (stash c) (stashId c) = Ret pkt
            /\ Read c b
               = Ret (mkReadResult (Z.of_nat (List.length pkt)) None (copy b pkt)
                        (set_stashId c (stashId c + 1)) []))
      /\ (awaiting c ->
          forall data err s,
            conn_Read (conn c) (Z.of_nat (List.length (buffer c))) = (data, err, s) ->
            exists r,
              Read c b = Ret r
              /\ hd_error (r_calls r)
                 = Some (SockRead (Z.of_nat (List.length (buffer c))))
              /\ sock_calls (r_calls r)
                 = [SockRead (Z.of_nat (List.length (buffer c)))]
              /\ conn (r_conn r) = s
              /\ forall dp k packets d,
                   err = None ->
                   Decrypt (crypt c) data = (dp, None, k) ->
                   Append (destick c) dp = (packets, None, d) ->
                   len packets <> 0 ->
                   readStashed (mkTCPConn s k (copy (buffer c) data) d packets 0) b
                     [SockRead (Z.of_nat (List.length (buffer c)));
                      CryptDecrypt data; DestickAppend dp]
                   = Ret r
                   /\ exists pkt,
                        index packets 0 = Ret pkt
                        /\ r = mkReadResult (Z.of_nat (List.length pkt)) None
                                 (copy b pkt)
                                 (mkTCPConn s k (copy (buffer c) data) d packets 1)
                                 [SockRead (Z.of_nat (List.length (buffer c)));
                                  CryptDecrypt data; DestickAppend dp])).
Proof.
  intros c b. split; [apply reachable_cursor|].
  intros Hc Hs.
  split; [exact (draining_or_awaiting c Hc)|].
  split; [exact (Read_keeps_cursor c b Hc Hs)|].
  split.
  - intros Hd. destruct (Read_draining c b Hd Hs) as (pkt & Hp & HR).
    exists pkt. split; [|exact HR].
    apply index_nth; [apply Hd | exact Hp].
  - intros Ha data err s Hr.
    rewrite (Read_awaiting c b Ha). cbv zeta. rewrite Hr.
    destruct err as [e|].
    { eexists. split; [reflexivity|]. cbn [r_conn r_calls].
      split; [reflexivity|]. split; [reflexivity|]. split; [reflexivity|].
      intros dp k packets d H. discriminate H. }
    destruct (Decrypt (crypt c) data) as [[dp0 [e|]] k0] eqn:HD.
    { eexists. split; [reflexivity|]. cbn [r_conn r_calls].
      split; [reflexivity|]. split; [reflexivity|]. split; [reflexivity|].
      intros dp k packets d _ H. discriminate H. }
    destruct (Append (destick c) dp0) as [[packets0 [e|]] d0] eqn:HA.
    { eexists. split; [reflexivity|]. cbn [r_conn r_calls].
      split; [reflexivity|]. split; [reflexivity|]. split; [reflexivity|].
      intros dp k packets d _ H. injection H as <- <-.
      intros H. rewrite HA in H. discriminate H. }
    destruct (Z.eqb_spec (len packets0) 0) as [H0|H0].
    { eexists. split; [reflexivity|]. cbn [r_conn r_calls].
      split; [reflexivity|]. split; [reflexivity|]. split; [reflexivity|].
      intros dp k packets d _ H. injection H as <- <-.
      intros H. rewrite HA in H. injection H as <- <-.
      intros Hne. contradiction. }
    assert (Hpos : 0 <= 0 < len packets0) by (unfold len in *; lia).
    destruct (nth_in_range _ packets0 0 Hpos) as [pkt Hp].
    pose proof (readStashed_at
      (mkTCPConn s k0 (copy (buffer c) data) d0 packets0 0)
      b [SockRead (Z.of_nat (List.length (buffer c))); CryptDecrypt data;
         DestickAppend dp0] pkt) as HRS.
    cbn [stashId stash set_stashId] in HRS.
    specialize (HRS ltac:(unfold int_max; lia) Hp).
    change (set_stashId
              (set_stash
                 (set_destick
                    (set_crypt (set_conn (set_buffer c (copy (buffer c) data)) s) k0)
                    d0) packets0) 0)
      with (mkTCPConn s k0 (copy (buffer c) data) d0 packets0 0).
    rewrite HRS. eexists. split; [reflexivity|]. cbn [r_conn r_calls].
    split; [reflexivity|]. split; [reflexivity|]. split; [reflexivity|].
    intros dp k packets d _ H. injection H as <- <-.
    intros H. rewrite HA in H. injection H as <- <-.
    intros _. split; [exact HRS|].
    exists pkt. split; [|reflexivity].
    apply index_nth; [lia | exact Hp].
Qed.



(** C3. In the awaiting state, when the socket read, the decryption
    and the frame extractor all succeed and no frame is complete,
    [Read] returns length 0 and no error; the caller's buffer, the
    stash and the cursor are as before, so the connection is still
    awaiting data. *)
Theorem Read_incomplete_frame :
  forall (c : TCPConn S C D) (b data dp : list byte) s k packets d,
  awaiting c ->
  conn_Read (conn c) (Z.of_nat (List.length (buffer c))) = (data, None, s) ->
  Decrypt (crypt c) data = (dp, None, k) ->
  Append (destick c) dp = (packets, None, d) ->
  len packets = 0 ->
  exists r,
    Read c b = Ret r
    /\ r_n r = 0 /\ r_err r = None /\ r_b r = b
    /\ stash (r_conn r) = stash c /\ stashId (r_conn r) = stashId c
    /\ awaiting (r_conn r)
    /\ r_calls r = [SockRead (Z.of_nat (List.length (buffer c)));
                    CryptDecrypt data; DestickAppend dp].
Proof.
  intros c b data dp s k packets d Ha Hr Hd HA H0.
  rewrite (Read_awaiting c b Ha). cbv zeta. rewrite Hr, Hd, HA, H0.
  cbn [Z.eqb]. eexists. split; [reflexivity|]. repeat split. exact Ha.
Qed.

(** C4. [Write] hands the whole input to the codec, once, before
    anything else.  If the codec fails, [Write] returns 0 and the
    write error that wraps the cause under "encrypt" and carries the
    local and remote endpoints; it makes no call on the socket, whose
    state is as before.  If the codec succeeds, [Write] makes one
    socket write, of the whole ciphertext, and returns what that write
    returns. *)
Theorem Write_contract : forall (c : TCPConn S C D) (b : list byte),
  hd_error (w_calls (Write c b)) = Some (CryptEncrypt b)
  /\ (forall contents e k,
        Encrypt (crypt c) b = (contents, Some e, k) ->
        w_n (Write c b) = 0
        /\ w_err (Write c b)
           = Some (OpError "write" "pcap" (LocalAddr (conn c)) (RemoteAddr (conn c))
                     (Wrapf "encrypt" e))
        /\ w_calls (Write c b) = [CryptEncrypt b]
        /\ sock_calls (w_calls (Write c b)) = []
        /\ conn (w_conn (Write c b)) = conn c)
  /\ (forall contents k,
        Encrypt (crypt c) b = (contents, None, k) ->
        w_calls (Write c b) = [CryptEncrypt b; SockWrite contents]
        /\ sock_calls (w_calls (Write c b)) = [SockWrite contents]
        /\ (w_n (Write c b), w_err (Write c b), conn (w_conn (Write c b)))
           = conn_Write (conn c) contents).
Proof.
  intros c b. unfold Write.
  destruct (Encrypt (crypt c) b) as [[contents [e|]] k] eqn:HE.
  - split; [reflexivity|]. split.
    + intros contents' e' k' H. injection H as <- <- <-. repeat split.
    + intros contents' k' H. discriminate H.
  - change (conn (set_crypt c k)) with (conn c).
    destruct (conn_Write (conn c) contents) as [[n err] s] eqn:HW.
    split; [reflexivity|]. split.
    + intros contents' e' k' H. discriminate H.
    + intros contents' k' H. injection H as <- <-. rewrite HW. repeat split.
Qed.

(** C10. On a [Write] that returns no error, the count returned is the
    number of ciphertext bytes, all of them taken by the socket write;
    it is not the length of the caller's datagram whenever the codec
    changes the length. *)
Theorem Write_count : forall (c : TCPConn S C D) (b contents : list byte) k,
  Encrypt (crypt c) b = (contents, None, k) ->
  w_err (Write c b) = None ->
  fst (fst (conn_Write (conn c) contents)) = w_n (Write c b)
  /\ w_n (Write c b) = Z.of_nat (List.length contents)
  /\ (List.length contents <> List.length b ->
      w_n (Write c b) <> Z.of_nat (List.length b)).
Proof.
  intros c b contents k HE Herr.
  unfold Write in *. rewrite HE in *.
  change (conn (set_crypt c k)) with (conn c) in *.
  destruct (conn_Write (conn c) contents) as [[n err] s] eqn:HW.
  cbn [w_n w_err fst] in *. subst err.
  destruct (conn_Write_le _ _ _ _ _ HW) as [Hn Hshort].
  assert (Heq : n = Z.of_nat (List.length contents)).
  { destruct (Z.eq_dec n (Z.of_nat (List.length contents))) as [E|E]; [exact E|].
    exfalso. apply Hshort; [lia | reflexivity]. }
  split; [reflexivity|]. split; [exact Heq|].
  intros Hne. rewrite Heq. lia.
Qed.

End ConnProps.

(** *** The connection over the simulated collaborators *)

Lemma fresh_buffer_len :
  forall {S C D : Type} {NC : NetConn S} {CR : Crypt C} {DS : Desticker D} (s : S) (k : C),
  Z.of_nat (List.length (buffer (newTCPConn (D := D) s k))) = 65535.
Proof.
  intros. cbn [buffer newTCPConn]. rewrite repeat_length. apply Z2Nat.id. lia.
Qed.

Lemma Read_state_machine_witness :
  (exists r,
     Read Samples.stashed (repeat x00 8) = Ret r
     /\ r_n r = 5 /\ r_err r = None
     /\ r_b r = [x01; x02; x03; x04; x05; x00; x00; x00]
     /\ r_calls r = []
     /\ r_conn r = set_stashId Samples.stashed 1)
  /\ (exists r,
     Read (Sim.connection [inl Samples.two_frames]) (repeat x00 8) = Ret r
     /\ r_n r = 5 /\ r_err r = None
     /\ r_b r = [x01; x02; x03; x04; x05; x00; x00; x00]
     /\ sock_calls (r_calls r) = [SockRead 65535]
     /\ stash (r_conn r) = Some [[x01; x02; x03; x04; x05]; [x07]]
     /\ stashId (r_conn r) = 1)
  /\ cursor_ok (Sim.connection [inl Samples.two_frames]).
Proof.
  split; [|split].
  - destruct (Read_state_machine Samples.stashed (repeat x00 8)) as [_ H].
    destruct H as (_ & _ & Hd & _).
    + unfold cursor_ok. cbn. lia.
    + unfold stash_is_slice, int_max. cbn. lia.
    + destruct Hd as (pkt & Hi & HR).
      * unfold draining. cbn. lia.
      * assert (E : pkt = [x01; x02; x03; x04; x05])
          by (lazy in Hi; congruence).
        subst pkt. eexists. split; [exact HR|]. repeat split.
  - destruct (Read_state_machine (Sim.connection [inl Samples.two_frames])
                (repeat x00 8)) as [_ H].
    destruct H as (_ & _ & _ & Ha).
    + unfold cursor_ok. cbn. lia.
    + unfold stash_is_slice, int_max. cbn. lia.
    + destruct (Ha eq_refl Samples.two_frames None (Sim.sock []))
        as (r & HR & _ & Hsock & _ & Hfill).
      * unfold Sim.connection. rewrite fresh_buffer_len. reflexivity.
      * destruct (Hfill [x05; x01; x02; x03; x04; x05; x01; x07] (Some x5a)
                    (Some [[x01; x02; x03; x04; x05]; [x07]])
                    (Sim.mkFrames [] keepSticky) eq_refl eq_refl eq_refl)
          as (_ & pkt & Hi & Hr).
        { discriminate. }
        assert (E : pkt = [x01; x02; x03; x04; x05])
          by (lazy in Hi; congruence).
        subst pkt. exists r. split; [exact HR|].
        unfold Sim.connection in Hsock. rewrite fresh_buffer_len in Hsock.
        rewrite Hr at 1 2 3 5 6. rewrite Hsock.
        repeat split.
  - exact (proj1 (proj1 (Read_state_machine (Sim.connection [inl Samples.two_frames]) [])
                    (reach_new _ _))).
Defined.



Lemma Read_incomplete_frame_witness :
  exists r,
    Read (Sim.connection [inl Samples.partial_frame]) [x00; x00] = Ret r
    /\ r_n r = 0 /\ r_err r = None
    /\ stash (r_conn r) = Some [] /\ stashId (r_conn r) = 0.
Proof.
  destruct (Read_incomplete_frame (Sim.connection [inl Samples.partial_frame])
              [x00; x00] Samples.partial_frame [x05; x01; x02]
              (Sim.sock []) (Some x5a) (Some [])
              (Sim.mkFrames [x05; x01; x02] keepSticky))
    as (r & HR & Hn & He & _ & Hs & Hi & _).
  - reflexivity.
  - unfold Sim.connection. rewrite fresh_buffer_len. reflexivity.
  - reflexivity.
  - reflexivity.
  - reflexivity.
  - exists r. repeat split; assumption.
Defined.

Lemma Write_contract_witness :
  w_n (Write Samples.keyless [x01; x02; x03]) = 0
  /\ w_err (Write Samples.keyless [x01; x02; x03])
     = Some (OpError "write" "pcap" Sim.here Sim.there
               (Wrapf "encrypt" (External "no key")))
  /\ Sim.outbox (conn (w_conn (Write Samples.keyless [x01; x02; x03]))) = []
  /\ w_calls (Write (Sim.connection []) [x01; x02; x03])
     = [CryptEncrypt [x01; x02; x03]; SockWrite [x01; x5b; x58; x59]].
Proof.
  destruct (Write_contract Samples.keyless [x01; x02; x03]) as (_ & Hfail & _).
  destruct (Hfail [] (External "no key") None eq_refl) as (Hn & He & _ & _ & Hc).
  destruct (Write_contract (Sim.connection []) [x01; x02; x03]) as (_ & _ & Hok).
  assert (HE : Encrypt (crypt (Sim.connection [])) [x01; x02; x03]
               = ([x01; x5b; x58; x59], None, Some x5a)) by reflexivity.
  destruct (Hok [x01; x5b; x58; x59] (Some x5a) HE) as (Hcalls & _).
  split; [exact Hn|]. split; [exact He|]. split; [rewrite Hc; reflexivity | exact Hcalls].
Defined.

Lemma Write_count_witness :
  w_n (Write (Sim.connection []) [x01; x02; x03]) = 4
  /\ w_n (Write (Sim.connection []) [x01; x02; x03])
     <> Z.of_nat (List.length [x01; x02; x03]).
Proof.
  assert (HE : Encrypt (crypt (Sim.connection [])) [x01; x02; x03]
               = ([x01; x5b; x58; x59], None, Some x5a)) by reflexivity.
  assert (Hok : w_err (Write (Sim.connection []) [x01; x02; x03]) = None)
    by reflexivity.
  destruct (Write_count (Sim.connection []) [x01; x02; x03] [x01; x5b; x58; x59]
              (Some x5a) HE Hok) as (_ & Hn & Hne).
  split; [exact Hn|]. apply Hne. cbn. lia.
Defined.

(** Two frames that arrive in one segment are delivered by two calls,
    in order, the second without any call on the socket. *)
Example Read_two_frames :
  exists r1 r2,
    Read (Sim.connection [inl Samples.two_frames]) (repeat x00 8) = Ret r1
    /\ Read (r_conn r1) (repeat x00 8) = Ret r2
    /\ (r_n r1, firstn 5 (r_b r1), sock_calls (r_calls r1), stashId (r_conn r1))
       = (5, [x01; x02; x03; x04; x05], [SockRead 65535], 1)
    /\ (r_n r2, firstn 1 (r_b r2), r_calls r2, stashId (r_conn r2)) = (1, [x07], [], 2)
    /\ awaiting (r_conn r2).
Proof.
  eexists. eexists.
  split.
  { rewrite Read_awaiting by reflexivity.
    unfold Sim.connection. cbv zeta. rewrite fresh_buffer_len. reflexivity. }
  split; [reflexivity|].
  repeat split.
Qed.

(** Lookup by family in a multi-IP endpoint. *)
Example MultiIPAddr_lookup :
  addr.IPv4 (mkMultiIPAddr [net.ParseIP "2001:db8::1"; net.ParseIP "10.0.0.1"])
  = net.ParseIP "10.0.0.1"
  /\ addr.IPv6 (mkMultiIPAddr [net.ParseIP "2001:db8::1"; net.ParseIP "10.0.0.1"])
     = net.ParseIP "2001:db8::1"
  /\ addr.IPv4 (mkMultiIPAddr [net.ParseIP "2001:db8::1"]) = None.
Proof. repeat split; reflexivity. Qed.

(* ================================================================== *)
(** * Further properties *)
(* ================================================================== *)

(** ** The filter host parses back *)

Lemma Z_of_byte_range : forall b : byte, 0 <= Z_of_byte b < 256.
Proof.
  intros b. unfold Z_of_byte. pose proof (Byte.to_N_bounded b). lia.
Qed.

Lemma byte_of_Z_mod : forall z b,
  z mod 256 = Z_of_byte b -> byte_of_Z z = b.
Proof.
  intros z b H. unfold byte_of_Z. rewrite H. unfold Z_of_byte.
  rewrite N2Z.id, Byte.of_to_N. reflexivity.
Qed.

Lemma group_facts : all_from group_ok (Z.to_nat 65536) 0 = true.
Proof. vm_cast_no_check (eq_refl true). Qed.

(** The text of two bytes, read as a hexadecimal number. *)
Lemma group_text : forall a b : byte,
  net.xtoi (hex.Encode [a; b]) = (256 * Z_of_byte a + Z_of_byte b, 4%nat, true)
  /\ byte_of_Z (Z.shiftr (256 * Z_of_byte a + Z_of_byte b) 8) = a
  /\ byte_of_Z (256 * Z_of_byte a + Z_of_byte b) = b
  /\ (256 * Z_of_byte a + Z_of_byte b >? 65535) = false.
Proof.
  intros a b.
  pose proof (Z_of_byte_range a) as Ha. pose proof (Z_of_byte_range b) as Hb.
  set (z := 256 * Z_of_byte a + Z_of_byte b).
  assert (Hz : 0 <= z < 0 + Z.of_nat (Z.to_nat 65536)) by (unfold z; lia).
  pose proof (all_from_spec group_ok _ 0 group_facts z Hz) as H.
  unfold group_ok in H.
  assert (Ea : byte_of_Z (z / 256) = a).
  { apply byte_of_Z_mod.
    replace (z / 256) with (Z_of_byte a)
      by (unfold z; apply Z.div_unique with (r := Z_of_byte b); lia).
    apply Z.mod_small. lia. }
  assert (Eb : byte_of_Z z = b).
  { apply byte_of_Z_mod. unfold z.
    rewrite Z.add_comm, Z.mul_comm, Z.mod_add by lia. apply Z.mod_small. lia. }
  rewrite Ea, Eb in H.
  destruct (net.xtoi (hex.Encode [a; b])) as [[n c] ok].
  apply andb_true_iff in H as [H Hs].
  apply andb_true_iff in H as [H Hok].
  apply andb_true_iff in H as [Hn Hc].
  apply Z.eqb_eq in Hn. apply Nat.eqb_eq in Hc. apply Byte.byte_dec_bl in Hs.
  subst n c ok. repeat split; try assumption.
  rewrite Z.gtb_ltb. apply Z.ltb_ge. lia.
Qed.

Lemma xtoi_loop_app : forall hs rest n i,
  nonhex_head rest ->
  net.xtoi_loop (hs +++ rest) n i = net.xtoi_loop hs n i.
Proof.
  induction hs as [|c hs IH]; intros rest n i Hr.
  - cbn [String.append net.xtoi_loop].
    destruct rest as [|ch r]; [reflexivity|].
    cbn [net.xtoi_loop nondigit_head nonhex_head] in *. unfold is_hex in Hr.
    apply orb_false_iff in Hr as [Hr H3]. apply orb_false_iff in Hr as [H1 H2].
    now rewrite H1, H2, H3.
  - cbn [String.append net.xtoi_loop].
    destruct (if in_range "0" "9" c then Some (code c - code "0")
              else if in_range "a" "f" c then Some (code c - code "a" + 10)
                   else if in_range "A" "F" c then Some (code c - code "A" + 10)
                        else None) as [d|]; [|reflexivity].
    destruct (n * 16 + d >=? net.big); [reflexivity|]. now apply IH.
Qed.

Lemma encode_pair_length : forall a b : byte, String.length (hex.Encode [a; b]) = 4%nat.
Proof. reflexivity. Qed.

Lemma encode_pair_head : forall (a b : byte) rest c,
  is_lower_hex c = false ->
  net.head_is (hex.Encode [a; b] +++ rest) c = false.
Proof.
  intros a b rest c Hc. cbn [hex.Encode String.append net.head_is].
  destruct (Ascii.eqb_spec (hex.hexchar (Z.shiftr (Z_of_byte a) 4)) c) as [E|_];
    [|reflexivity].
  rewrite <- E, hexchar_hi_lower in Hc. discriminate Hc.
Qed.

Lemma str_drop_pair : forall (a b : byte) rest,
  str_drop 4 (hex.Encode [a; b] +++ rest) = rest.
Proof. reflexivity. Qed.

(** One group read by [parseIPv6], the text going on with a colon and
    another group. *)
Lemma parseIPv6_group : forall room (a b a' b' : byte) rest ip e,
  net.parseIPv6_loop (S room)
    (hex.Encode [a; b] +++ String ":" (hex.Encode [a'; b'] +++ rest)) ip e
  = net.parseIPv6_loop room (hex.Encode [a'; b'] +++ rest) (ip ++ [a; b]) e.
Proof.
  intros room a b a' b' rest ip e.
  destruct (group_text a b) as (Hx & Hhi & Hlo & Hmax).
  cbn [net.parseIPv6_loop].
  unfold net.xtoi. rewrite xtoi_loop_app by reflexivity.
  change (net.xtoi_loop (hex.Encode [a; b]) 0 0) with (net.xtoi (hex.Encode [a; b])).
  rewrite Hx. cbn [negb orb]. rewrite Hmax.
  rewrite !str_drop_pair. cbn [net.head_is].
  change (Ascii.eqb ":" ".") with false. rewrite andb_false_r.
  rewrite Hhi, Hlo.
  change (String.eqb (String ":" (hex.Encode [a'; b'] +++ rest)) "") with false.
  change (Ascii.eqb ":" ":") with true. cbn [negb orb].
  cbn [String.length Nat.eqb hex.Encode String.append str_drop net.head_is].
  destruct (Ascii.eqb_spec (hex.hexchar (Z.shiftr (Z_of_byte a') 4)) ":") as [E|_].
  { pose proof (hexchar_hi_lower a') as H. rewrite E in H. discriminate H. }
  reflexivity.
Qed.

(** The last group read by [parseIPv6]. *)
Lemma parseIPv6_last_group : forall room (a b : byte) ip e,
  net.parseIPv6_loop (S room) (hex.Encode [a; b]) ip e = Some ("", ip ++ [a; b], e).
Proof.
  intros room a b ip e.
  destruct (group_text a b) as (Hx & Hhi & Hlo & Hmax).
  cbn [net.parseIPv6_loop]. rewrite Hx. cbn [negb orb]. rewrite Hmax.
  rewrite encode_pair_length. cbn [Nat.ltb Nat.leb andb].
  rewrite Hhi, Hlo.
  rewrite <- (encode_pair_length a b).
  assert (E : str_drop (String.length (hex.Encode [a; b])) (hex.Encode [a; b]) = "").
  { reflexivity. }
  rewrite E. reflexivity.
Qed.

Lemma ParseIP_scan_hex : forall g rest s0,
  all_chars is_lower_hex g = true ->
  net.ParseIP_scan s0 (g +++ String ":" rest) = net.parseIPv6 s0.
Proof.
  induction g as [|c g IH]; intros rest s0 H.
  - reflexivity.
  - cbn [all_chars] in H. apply andb_true_iff in H as [Hc Hg].
    cbn [String.append net.ParseIP_scan].
    destruct (Ascii.eqb_spec c ".") as [->|_]; [discriminate Hc|].
    destruct (Ascii.eqb_spec c ":") as [->|_]; [discriminate Hc|].
    now apply IH.
Qed.

(** The expanded text of sixteen bytes parses back to them. *)
Lemma ParseIP_expanded : forall l : list byte,
  List.length l = 16%nat ->
  net.ParseIP (join_colon (hex_groups l)) = Some l.
Proof.
  intros l Hl.
  destruct (list_of_length_16 _ _ Hl)
    as (a0 & a1 & a2 & a3 & a4 & a5 & a6 & a7 & a8 & a9 & a10 & a11 & a12 & a13 & a14 & a15 & ->).
  change (join_colon (hex_groups [a0; a1; a2; a3; a4; a5; a6; a7; a8; a9; a10; a11;
                                  a12; a13; a14; a15]))
    with (hex.Encode [a0; a1] +++ String ":" (hex.Encode [a2; a3] +++ String ":"
         (hex.Encode [a4; a5] +++ String ":" (hex.Encode [a6; a7] +++ String ":"
         (hex.Encode [a8; a9] +++ String ":" (hex.Encode [a10; a11] +++ String ":"
         (hex.Encode [a12; a13] +++ String ":" (hex.Encode [a14; a15] +++ "")))))))).
  unfold net.ParseIP.
  rewrite ParseIP_scan_hex
    by (pose proof (hex_pair_group a0 a1) as H; unfold hex_group in H;
        now apply andb_true_iff in H as [_ H]).
  unfold net.parseIPv6.
  rewrite !(encode_pair_head a0 a1) by reflexivity.
  assert (Hlead : forall (n : bool) (t : string),
             n && false && net.head_is (str_drop 1 t) ":" = false)
    by (intros n t; now rewrite andb_false_r).
  rewrite !Hlead. cbn [andb].
  rewrite !parseIPv6_group.
  change (hex.Encode [a14; a15] +++ "") with (hex.Encode [a14; a15]).
  rewrite parseIPv6_last_group. reflexivity.
Qed.

Lemma To4_mapped : forall ip : IP,
  len ip = net.IPv6len -> is_nil (net.To4 ip) = false ->
  exists a b c d, ip = net.IPv4 a b c d /\ net.To4 ip = Some [a; b; c; d].
Proof.
  intros ip Hlen Hnil. unfold net.To4 in *. rewrite Hlen in *.
  change (net.IPv6len =? net.IPv4len) with false in *.
  change (net.IPv6len =? net.IPv6len) with true in *. cbn [andb] in *.
  destruct ip as [l|]; [|discriminate Hlen].
  assert (Hl : List.length l = 16%nat) by (unfold len, net.IPv6len in Hlen; cbn in Hlen; lia).
  destruct (list_of_length_16 _ _ Hl)
    as (a0 & a1 & a2 & a3 & a4 & a5 & a6 & a7 & a8 & a9 & a10 & a11 & a12 & a13 & a14 & a15 & ->).
  cbn [elems firstn skipn nth net.isZeros forallb] in *.
  destruct
    (Byte.eqb x00 a0 && (Byte.eqb x00 a1 && (Byte.eqb x00 a2 && (Byte.eqb x00 a3
     && (Byte.eqb x00 a4 && (Byte.eqb x00 a5 && (Byte.eqb x00 a6 && (Byte.eqb x00 a7
     && (Byte.eqb x00 a8 && (Byte.eqb x00 a9 && true))))))))) && Byte.eqb a10 xff
     && Byte.eqb a11 xff) eqn:E; [|discriminate Hnil].
  repeat (apply andb_true_iff in E; destruct E as [E ?]).
  repeat match goal with
         | H : Byte.eqb _ _ = true |- _ => apply Byte.byte_dec_bl in H; subst
         | H : _ && _ = true |- _ => apply andb_true_iff in H; destruct H
         end.
  exists a12, a13, a14, a15. split; reflexivity.
Qed.

(** The text [fullString] returns for a 16-byte address parses back,
    with [net.ParseIP], to that address. *)
Lemma fullString_ParseIP_16 : forall ip : IP,
  len ip = net.IPv6len ->
  exists s, addr.fullString ip = Ret s /\ net.ParseIP s = ip.
Proof.
  intros ip Hlen. destruct (is_nil (net.To4 ip)) eqn:Hnil.
  - exists (join_colon (hex_groups (elems ip))).
    split; [apply (fullString_16 ip Hnil Hlen)|].
    destruct ip as [l|]; [|discriminate Hlen].
    apply ParseIP_expanded. unfold len, net.IPv6len in Hlen. cbn in Hlen. lia.
  - destruct (To4_mapped ip Hlen Hnil) as (a & b & c & d & -> & H4).
    exists (net.dotted [a; b; c; d]). split.
    + rewrite fullString_v4 by (rewrite H4; reflexivity). now rewrite H4.
    + rewrite dotted_dotted4. apply ParseIP_dotted.
Qed.

(** X1. For every 16-byte address the text [fullString] returns is
    read back by [net.ParseIP] as that same address; for a 4-byte
    address it is read back as the 16-byte form of the address. *)
Theorem fullString_parses_back :
  (forall ip : IP, len ip = net.IPv6len ->
     exists s, addr.fullString ip = Ret s /\ net.ParseIP s = ip)
  /\ (forall a b c d : byte,
     exists s, addr.fullString (Some [a; b; c; d]) = Ret s
               /\ net.ParseIP s = net.IPv4 a b c d).
Proof.
  split; [exact fullString_ParseIP_16|].
  intros a b c d. exists (net.dotted [a; b; c; d]).
  split; [reflexivity|]. rewrite dotted_dotted4. apply ParseIP_dotted.
Qed.

Lemma fullString_parses_back_witness :
  exists s,
    addr.fullString (net.ParseIP "fe80::1:2") = Ret s
    /\ net.ParseIP s = net.ParseIP "fe80::1:2".
Proof.
  exact (proj1 fullString_parses_back (net.ParseIP "fe80::1:2") eq_refl).
Defined.

Lemma append_cancel_l : forall s t1 t2 : string, s +++ t1 = s +++ t2 -> t1 = t2.
Proof.
  induction s as [|c s IH]; intros t1 t2 H; cbn [String.append] in H;
    [assumption | injection H as H; now apply IH].
Qed.

Lemma append_length : forall s t : string,
  String.length (s +++ t) = (String.length s + String.length t)%nat.
Proof.
  induction s as [|c s IH]; intros t; cbn [String.append String.length];
    [reflexivity | now rewrite IH].
Qed.

Lemma append_cancel_r : forall t1 t2 u : string, t1 +++ u = t2 +++ u -> t1 = t2.
Proof.
  induction t1 as [|c t1 IH]; intros [|d t2] u H; cbn [String.append] in H.
  - reflexivity.
  - apply (f_equal String.length) in H. cbn [String.length] in H.
    rewrite append_length in H. lia.
  - apply (f_equal String.length) in H. cbn [String.length] in H.
    rewrite append_length in H. lia.
  - injection H as -> H. f_equal. now apply (IH t2 u).
Qed.

(** X2. The filter of a point-IP endpoint identifies its address: two
    16-byte addresses with the same filter are the same address.  A
    4-byte address and its 16-byte form have the same filter, and the
    zone of the endpoint plays no part. *)
Theorem host_filter_injective : forall (dir : string) (ip1 ip2 : IP) (z1 z2 : string),
  len ip1 = net.IPv6len -> len ip2 = net.IPv6len ->
  (addr.bpfFilter dir (A_IP (mkIPAddr ip1 z1)) = addr.bpfFilter dir (A_IP (mkIPAddr ip2 z2))
   -> ip1 = ip2)
  /\ addr.bpfFilter dir (A_IP (mkIPAddr ip1 z1)) = addr.bpfFilter dir (A_IP (mkIPAddr ip1 z2))
  /\ (forall a b c d z,
        addr.bpfFilter dir (A_IP (mkIPAddr (Some [a; b; c; d]) z))
        = addr.bpfFilter dir (A_IP (mkIPAddr (net.IPv4 a b c d) z))).
Proof.
  intros dir ip1 ip2 z1 z2 H1 H2. split; [|split; reflexivity].
  destruct (fullString_ParseIP_16 ip1 H1) as (s1 & Hs1 & Hp1).
  destruct (fullString_ParseIP_16 ip2 H2) as (s2 & Hs2 & Hp2).
  unfold addr.bpfFilter. cbn [IPAddr_IP]. rewrite Hs1, Hs2. cbn [bind].
  intros H. injection H as H.
  apply append_cancel_l in H. injection H as H.
  apply append_cancel_r in H. subst s2. now rewrite <- Hp1, <- Hp2.
Qed.

Lemma host_filter_injective_witness :
  addr.bpfFilter "src" (A_IP (mkIPAddr (net.ParseIP "fe80::1") "eth0"))
  = addr.bpfFilter "src" (A_IP (mkIPAddr (net.ParseIP "fe80::1") "")).
Proof.
  exact (proj1 (proj2 (host_filter_injective "src" (net.ParseIP "fe80::1")
                         (net.ParseIP "fe80::1") "eth0" "" eq_refl eq_refl))).
Defined.

(** ** What the parser returns *)

Lemma ParseUint_loop_range : forall s s0 base maxVal cutoff n v,
  strconv.ParseUint_loop s0 base maxVal cutoff s n = (v, None) ->
  0 <= n <= maxVal -> 0 <= v <= maxVal.
Proof.
  induction s as [|ch s IH]; intros s0 base maxVal cutoff n v H Hn;
    cbn [strconv.ParseUint_loop] in H.
  - injection H as <-. exact Hn.
  - destruct (strconv.digit_of ch) as [d|]; [|discriminate H].
    destruct (d >=? base); [discriminate H|].
    destruct (n >=? cutoff); [discriminate H|].
    cbv zeta in H.
    destruct (((n * base) mod 2 ^ 64 + d) mod 2 ^ 64 <? (n * base) mod 2 ^ 64) eqn:E1;
      [discriminate H|].
    destruct (((n * base) mod 2 ^ 64 + d) mod 2 ^ 64 >? maxVal) eqn:E2;
      [discriminate H|].
    cbn [orb] in H. apply (IH _ _ _ _ _ _ H).
    split.
    + apply Z.mod_pos_bound. reflexivity.
    + rewrite Z.gtb_ltb in E2. now apply Z.ltb_ge in E2.
Qed.

Lemma ParseUint_range : forall s v,
  strconv.ParseUint s 10 16 = (v, None) -> 0 <= v <= 65535.
Proof.
  intros s v H. unfold strconv.ParseUint in H.
  destruct (String.eqb s ""); [discriminate H|].
  apply (ParseUint_loop_range _ _ _ _ _ _ _ H). cbn. lia.
Qed.

Lemma parseIPv6_loop_length : forall room s ip e s' ip' e',
  net.parseIPv6_loop room s ip e = Some (s', ip', e') ->
  (List.length ip + 2 * room <= 16)%nat ->
  (List.length ip' <= 16)%nat.
Proof.
  induction room as [|room IH]; intros s ip e s' ip' e' H Hlen;
    cbn [net.parseIPv6_loop] in H.
  - injection H as _ <- _. lia.
  - destruct (net.xtoi s) as [[n c] ok].
    destruct (negb ok || (n >? 65535)); [discriminate H|].
    destruct (Nat.ltb c (String.length s) && net.head_is (str_drop c s) ".").
    + destruct ((match e with None => true | Some _ => false end)
                && negb (Nat.eqb (List.length ip) 12)); [discriminate H|].
      destruct (Nat.ltb_spec 16 (List.length ip + 4)) as [|Hroom]; [discriminate H|].
      destruct (net.parseIPv4 s) as [ip4|]; [|discriminate H].
      assert (E : ip' = ip ++ firstn 4 (skipn 12 ip4)) by congruence.
      rewrite E, length_app.
      pose proof (firstn_le_length 4 (skipn 12 ip4)). lia.
    + assert (Hl2 : (List.length (ip ++ [byte_of_Z (Z.shiftr n 8); byte_of_Z n])
                     + 2 * room <= 16)%nat)
        by (rewrite length_app; cbn [List.length]; lia).
      destruct (String.eqb (str_drop c s) "").
      { injection H as _ <- _. lia. }
      destruct (negb (net.head_is (str_drop c s) ":")
                || Nat.eqb (String.length (str_drop c s)) 1); [discriminate H|].
      destruct (net.head_is (str_drop 1 (str_drop c s)) ":").
      * destruct e; [discriminate H|].
        destruct (String.eqb (str_drop 1 (str_drop 1 (str_drop c s))) "").
        { injection H as _ <- _. lia. }
        apply (IH _ _ _ _ _ _ H Hl2).
      * apply (IH _ _ _ _ _ _ H Hl2).
Qed.

(** [net.ParseIP] returns nil or sixteen bytes. *)
Lemma ParseIP_length : forall s l, net.ParseIP s = Some l -> List.length l = 16%nat.
Proof.
  assert (H4 : forall s l, net.parseIPv4 s = Some l -> List.length l = 16%nat).
  { intros s l H. unfold net.parseIPv4 in H.
    destruct (net.parseIPv4_loop 4 s []); [|discriminate H].
    injection H as <-. reflexivity. }
  assert (H6 : forall s l, net.parseIPv6 s = Some l -> List.length l = 16%nat).
  { intros s l H. unfold net.parseIPv6 in H. cbv zeta in H.
    match type of H with
    | (if ?t then _ else _) = _ => destruct t
    end; [injection H as <-; reflexivity|].
    match type of H with
    | match ?t with _ => _ end = _ => destruct t as [[[s' ip] e]|] eqn:HL
    end; [|discriminate H].
    apply parseIPv6_loop_length in HL; [|cbn; lia].
    destruct (negb (String.eqb s' "")); [discriminate H|].
    destruct (Nat.ltb_spec (List.length ip) 16) as [Hlt|Hge].
    - destruct e as [e|]; [|discriminate H].
      assert (E : l = firstn e ip ++ net.zeros (16 - List.length ip) ++ skipn e ip)
        by congruence.
      rewrite E, !length_app, length_firstn, length_skipn. unfold net.zeros.
      rewrite repeat_length. lia.
    - destruct e; [discriminate H|].
      assert (E : l = ip) by congruence. rewrite E. lia. }
  intros s l. unfold net.ParseIP. generalize s at 1. intros s0.
  induction s as [|ch s IH]; cbn [net.ParseIP_scan]; [discriminate|].
  destruct (Ascii.eqb ch "."); [apply H4|].
  destruct (Ascii.eqb ch ":"); [apply H6 | apply IH].
Qed.

Lemma ParseTCPAddr_shape : forall s a e,
  addr.ParseTCPAddr s = (a, e) ->
  (a = None /\ e <> None)
  \/ (e = None
      /\ exists l port,
           a = Some (mkTCPAddr (Some l) port "")
           /\ List.length l = 16%nat /\ 0 <= port <= 65535).
Proof.
  intros s a e H. unfold addr.ParseTCPAddr in H.
  destruct (net.SplitHostPort s) as [[h p] [se|]].
  - left. inversion H. split; [reflexivity | discriminate].
  - destruct (net.ParseIP h) as [l|] eqn:Hip; cbn [is_nil] in H.
    + destruct (strconv.ParseUint p 10 16) as [port [pe|]] eqn:Hp.
      * left. inversion H. split; [reflexivity | discriminate].
      * right. inversion H. split; [reflexivity|]. exists l, port.
        split; [reflexivity|]. split; [exact (ParseIP_length h l Hip)|].
        exact (ParseUint_range p port Hp).
    + left. inversion H. split; [reflexivity | discriminate].
Qed.

Lemma ParseAddr_shape : forall s,
  s <> "" ->
  exists a e,
    addr.ParseAddr s = Ret (a, e)
    /\ ((a = None /\ e <> None)
        \/ (e = None /\ exists ep, a = Some ep /\ parsed_endpoint ep)).
Proof.
  intros [|c s] Hne; [congruence|]. rewrite ParseAddr_nonempty.
  destruct (Ascii.eqb c ":").
  - destruct (strconv.ParseUint s 10 16) as [port [pe|]] eqn:Hp.
    + eexists. eexists. split; [reflexivity|]. left. split; [reflexivity | discriminate].
    + eexists. eexists. split; [reflexivity|]. right. split; [reflexivity|].
      eexists. split; [reflexivity|]. cbn.
      split; [now left|]. split; [exact (ParseUint_range s port Hp) | reflexivity].
  - destruct (addr.ParseTCPAddr (String c s)) as [t [te|]] eqn:Ht.
    + destruct (net.ParseIP (String c s)) as [l|] eqn:Hip; cbn [is_nil].
      * eexists. eexists. split; [reflexivity|]. right. split; [reflexivity|].
        eexists. split; [reflexivity|]. cbn [parsed_endpoint IPAddr_IP IPAddr_Zone].
        split; [|reflexivity]. unfold len, net.IPv6len. cbn [elems].
        rewrite (ParseIP_length _ _ Hip). reflexivity.
      * eexists. eexists. split; [reflexivity|]. left.
        split; [reflexivity | discriminate].
    + destruct (ParseTCPAddr_shape _ _ _ Ht) as [[_ Hn]|[_ (l & port & -> & Hl & Hp)]];
        [now elim Hn|].
      eexists. eexists. split; [reflexivity|]. right. split; [reflexivity|].
      eexists. split; [reflexivity|].
      cbn [parsed_endpoint TCPAddr_IP TCPAddr_Port TCPAddr_Zone].
      split; [right; unfold len, net.IPv6len; cbn [elems]; now rewrite Hl|].
      split; [exact Hp | reflexivity].
Qed.

(** X3. [ParseAddr] panics on the empty text and on no other; on any
    other text it returns either an endpoint or an error, never both
    and never neither.  [ParseTCPAddr] likewise returns exactly one of
    the two. *)
Theorem ParseAddr_outcomes : forall s,
  (forall p, addr.ParseAddr s = Panic p -> s = "")
  /\ (s <> "" ->
      exists a e, addr.ParseAddr s = Ret (a, e) /\ (a = None <-> e <> None))
  /\ (forall a e, addr.ParseTCPAddr s = (a, e) -> (a = None <-> e <> None)).
Proof.
  intros s. split; [|split].
  - intros p H. destruct (string_dec s "") as [E|Hne]; [exact E|].
    destruct (ParseAddr_shape s Hne) as (a & e & HR & _).
    rewrite HR in H. discriminate H.
  - intros Hne. destruct (ParseAddr_shape s Hne) as (a & e & HR & Hcase).
    exists a, e. split; [exact HR|].
    destruct Hcase as [[-> He]|[-> (ep & -> & _)]].
    + split; [intros _; exact He | reflexivity].
    + split; [discriminate | intros H; now elim H].
  - intros a e H.
    destruct (ParseTCPAddr_shape _ _ _ H) as [[-> He]|[-> (l & port & -> & _)]].
    + split; [intros _; exact He | reflexivity].
    + split; [discriminate | intros H'; now elim H'].
Qed.

Lemma ParseAddr_outcomes_witness :
  exists a e,
    addr.ParseAddr "::1" = Ret (a, e) /\ (a = None <-> e <> None).
Proof.
  apply (proj1 (proj2 (ParseAddr_outcomes "::1"))). discriminate.
Defined.

(** X4. Every endpoint [ParseAddr] returns comes without an error and
    is a TCP endpoint or a point-IP endpoint: its IP, if it has one, is
    sixteen bytes long, its port lies in 0..65535, and it has no zone. *)
Theorem ParseAddr_endpoint_wf : forall s ep e,
  addr.ParseAddr s = Ret (Some ep, e) -> e = None /\ parsed_endpoint ep.
Proof.
  intros s ep e H.
  assert (Hne : s <> "") by (intros ->; discriminate H).
  destruct (ParseAddr_shape s Hne) as (a' & e' & HR & Hcase).
  rewrite HR in H. injection H as -> ->.
  destruct Hcase as [[Ha _]|[-> (ep' & Ha & Hwf)]]; [discriminate Ha|].
  injection Ha as <-. split; [reflexivity | exact Hwf].
Qed.

Lemma ParseAddr_endpoint_wf_witness :
  parsed_endpoint (A_TCP (mkTCPAddr (net.ParseIP "::1") 80 "")).
Proof.
  exact (proj2 (ParseAddr_endpoint_wf "[::1]:80" _ None eq_refl)).
Defined.

Lemma parsed_endpoint_filter : forall dir ep,
  parsed_endpoint ep -> exists text, addr.bpfFilter dir ep = Ret (text, None).
Proof.
  intros dir [i|t|u|p q|p m] H; try contradiction.
  - destruct i as [ip z]. cbn in H. destruct H as [Hl _].
    destruct (fullString_valid ip (or_intror Hl)) as [h Hh].
    unfold addr.bpfFilter. cbn [IPAddr_IP]. rewrite Hh. eexists. reflexivity.
  - destruct t as [ip port z]. cbn in H. destruct H as [[->|Hl] _].
    + eexists. reflexivity.
    + destruct (fullString_valid ip (or_intror Hl)) as [h Hh].
      unfold addr.bpfFilter. cbn [TCPAddr_IP TCPAddr_Port].
      rewrite (len_pos_not_nil _ ip) by (rewrite Hl; reflexivity).
      rewrite Hh. eexists. reflexivity.
Qed.

(** X5. Every endpoint [ParseAddr] returns compiles: [bpfFilter], and
    so [SrcBPFFilter] and [DstBPFFilter], return a filter text for it,
    without a panic and without an error. *)
Theorem parsed_endpoint_compiles : forall s ep e dir,
  addr.ParseAddr s = Ret (Some ep, e) ->
  (exists text, addr.bpfFilter dir ep = Ret (text, None))
  /\ (exists text, addr.SrcBPFFilter ep = Ret (text, None))
  /\ (exists text, addr.DstBPFFilter ep = Ret (text, None)).
Proof.
  intros s ep e dir H.
  assert (Hne : s <> "") by (intros ->; discriminate H).
  destruct (ParseAddr_shape s Hne) as (a' & e' & HR & Hcase).
  rewrite HR in H. injection H as -> ->.
  destruct Hcase as [[Ha _]|[_ (ep' & Ha & Hwf)]]; [discriminate Ha|].
  injection Ha as <-.
  split; [|split]; now apply parsed_endpoint_filter.
Qed.

Lemma parsed_endpoint_compiles_witness :
  exists text,
    addr.DstBPFFilter (A_IP (mkIPAddr (net.ParseIP "fe80::1") "")) = Ret (text, None).
Proof.
  exact (proj2 (proj2 (parsed_endpoint_compiles "fe80::1" _ None "dst" eq_refl))).
Defined.

Lemma format_int_uitoa : forall z, 0 <= z -> format_int z = net.uitoa z.
Proof.
  intros [|p|p] H; [reflexivity | reflexivity | lia].
Qed.

(** X6. From text to filter, for IPv4: the text "a.b.c.d:port", with a
    port below 65536 in decimal, is parsed to an endpoint whose filter
    is "(dir host a.b.c.d && dir port port)", with the same host and
    port texts; "a.b.c.d" alone gives "(dir host a.b.c.d)" and ":port"
    gives "(dir port port)". *)
Theorem ipv4_text_to_filter : forall (dir : string) (a b c d : byte) (port : Z),
  0 <= port < 65536 ->
  (exists ep,
     addr.ParseAddr (net.dotted [a; b; c; d] +++ ":" +++ net.uitoa port)
     = Ret (Some ep, None)
     /\ addr.bpfFilter dir ep
        = Ret ("(" +++ dir +++ " host " +++ net.dotted [a; b; c; d] +++ " && "
                   +++ dir +++ " port " +++ net.uitoa port +++ ")", None))
  /\ (exists ep,
     addr.ParseAddr (net.dotted [a; b; c; d]) = Ret (Some ep, None)
     /\ addr.bpfFilter dir ep
        = Ret ("(" +++ dir +++ " host " +++ net.dotted [a; b; c; d] +++ ")", None))
  /\ (exists ep,
     addr.ParseAddr (":" +++ net.uitoa port) = Ret (Some ep, None)
     /\ addr.bpfFilter dir ep
        = Ret ("(" +++ dir +++ " port " +++ net.uitoa port +++ ")", None)).
Proof.
  intros dir a b c d port Hp.
  destruct (port_text port Hp) as [_ Hv].
  split; [|split].
  - eexists. split.
    + rewrite dotted_dotted4. exact (ParseAddr_dotted_port a b c d port Hp).
    + unfold addr.bpfFilter. cbn [TCPAddr_IP TCPAddr_Port is_nil net.IPv4].
      rewrite format_int_uitoa by lia. reflexivity.
  - eexists. split.
    + rewrite dotted_dotted4. exact (ParseAddr_dotted a b c d).
    + reflexivity.
  - eexists. split.
    + change (":" +++ net.uitoa port) with (String ":" (net.uitoa port)).
      rewrite ParseAddr_nonempty. cbn [Ascii.eqb Bool.eqb]. rewrite Hv. reflexivity.
    + unfold addr.bpfFilter. cbn [TCPAddr_IP TCPAddr_Port is_nil].
      rewrite format_int_uitoa by lia. reflexivity.
Qed.

Lemma ipv4_text_to_filter_witness :
  exists ep,
    addr.ParseAddr "192.168.1.10:443" = Ret (Some ep, None)
    /\ addr.bpfFilter "dst" ep = Ret ("(dst host 192.168.1.10 && dst port 443)", None).
Proof.
  assert (Hp : 0 <= 443 < 65536) by lia.
  exact (proj1 (ipv4_text_to_filter "dst" xc0 xa8 x01 x0a 443 Hp)).
Defined.

(** ** Lookup by family *)

(** X7. [IPv4] returns the first address of the sequence that has an
    IPv4 form, and nil exactly when no address has one.  [IPv6]
    returns the first address that has no IPv4 form, whatever its
    length, and nil when every address has an IPv4 form. *)
Theorem MultiIPAddr_lookup_first : forall a : MultiIPAddr,
  (addr.IPv4 a = None <-> Forall (fun ip => is_nil (net.To4 ip) = true) (IPs a))
  /\ (forall l, addr.IPv4 a = Some l ->
        is_nil (net.To4 (Some l)) = false
        /\ exists before after,
             IPs a = before ++ Some l :: after
             /\ Forall (fun ip => is_nil (net.To4 ip) = true) before)
  /\ (forall l, addr.IPv6 a = Some l ->
        is_nil (net.To4 (Some l)) = true
        /\ exists before after,
             IPs a = before ++ Some l :: after
             /\ Forall (fun ip => is_nil (net.To4 ip) = false) before)
  /\ (Forall (fun ip => is_nil (net.To4 ip) = false) (IPs a) -> addr.IPv6 a = None).
Proof.
  intros [ips]. unfold addr.IPv4, addr.IPv6. cbn [IPs].
  split; [|split; [|split]].
  - induction ips as [|ip ips IH]; cbn [addr.IPv4_loop].
    + split; [constructor | reflexivity].
    + destruct (is_nil (net.To4 ip)) eqn:E; cbn [negb].
      * rewrite IH. split; [intros H; now constructor | intros H; now inversion H].
      * split.
        -- intros ->. discriminate E.
        -- intros H. inversion H; congruence.
  - induction ips as [|ip ips IH]; cbn [addr.IPv4_loop]; intros l H; [discriminate H|].
    destruct (is_nil (net.To4 ip)) eqn:E; cbn [negb] in H.
    + destruct (IH l H) as (Hl & before & after & -> & Hb).
      split; [exact Hl|]. exists (ip :: before), after.
      split; [reflexivity | now constructor].
    + subst ip. split; [exact E|]. exists [], ips. split; [reflexivity | constructor].
  - induction ips as [|ip ips IH]; cbn [addr.IPv6_loop]; intros l H; [discriminate H|].
    destruct (is_nil (net.To4 ip)) eqn:E.
    + subst ip. split; [exact E|]. exists [], ips. split; [reflexivity | constructor].
    + destruct (IH l H) as (Hl & before & after & -> & Hb).
      split; [exact Hl|]. exists (ip :: before), after.
      split; [reflexivity | now constructor].
  - induction ips as [|ip ips IH]; cbn [addr.IPv6_loop]; intros H; [reflexivity|].
    inversion H as [|x xs Hx Hxs]; subst. rewrite Hx. now apply IH.
Qed.

Lemma MultiIPAddr_lookup_first_witness :
  addr.IPv6 (mkMultiIPAddr [net.ParseIP "10.0.0.1"; Some [x0a; x00; x00; x02]]) = None.
Proof.
  apply (proj2 (proj2 (proj2 (MultiIPAddr_lookup_first
           (mkMultiIPAddr [net.ParseIP "10.0.0.1"; Some [x0a; x00; x00; x02]]))))).
  repeat constructor.
Defined.

(** ** More on the connection *)

Lemma copy_length : forall (A : Type) (buf data : list A),
  (List.length data <= List.length buf)%nat ->
  List.length (copy buf data) = List.length buf.
Proof.
  intros A buf data H. unfold copy.
  rewrite length_app, length_firstn, length_skipn. lia.
Qed.

Lemma copy_fits : forall (A : Type) (b pkt : list A),
  (List.length pkt <= List.length b)%nat ->
  copy b pkt = pkt ++ skipn (List.length pkt) b.
Proof.
  intros A b pkt H. unfold copy. now rewrite firstn_all2.
Qed.


Section ConnMore.

Context {S C D : Type} {NC : NetConn S} {CR : Crypt C} {DS : Desticker D}.

(** X8. The three ways a [Read] that goes to the socket can fail.  A
    socket error is returned as it is; a decryption error and a frame
    extractor error come wrapped in a read error that carries the
    endpoints and the cause under "decrypt" or "destick".  In each
    case the count is 0, the caller's buffer, the stash and the cursor
    are untouched, what was read from the socket is gone, and the
    collaborators after the failing one are not called: the frame
    extractor is as before when the decryption fails. *)
Theorem Read_failures :
  forall (c : TCPConn S C D) (b data : list byte) (err : option error) (s : S),
  awaiting c ->
  conn_Read (conn c) (Z.of_nat (List.length (buffer c))) = (data, err, s) ->
  (forall e, err = Some e ->
     Read c b
     = Ret (mkReadResult 0 (Some e) b
              (mkTCPConn s (crypt c) (copy (buffer c) data) (destick c)
                 (stash c) (stashId c))
              [SockRead (Z.of_nat (List.length (buffer c)))]))
  /\ (forall dp e k,
     err = None -> Decrypt (crypt c) data = (dp, Some e, k) ->
     Read c b
     = Ret (mkReadResult 0
              (Some (OpError "read" "pcap" (LocalAddr s) (RemoteAddr s)
                       (Wrapf "decrypt" e))) b
              (mkTCPConn s k (copy (buffer c) data) (destick c) (stash c) (stashId c))
              [SockRead (Z.of_nat (List.length (buffer c))); CryptDecrypt data]))
  /\ (forall dp k packets e d,
     err = None -> Decrypt (crypt c) data = (dp, None, k) ->
     Append (destick c) dp = (packets, Some e, d) ->
     Read c b
     = Ret (mkReadResult 0
              (Some (OpError "read" "pcap" (LocalAddr s) (RemoteAddr s)
                       (Wrapf "destick" e))) b
              (mkTCPConn s k (copy (buffer c) data) d (stash c) (stashId c))
              [SockRead (Z.of_nat (List.length (buffer c))); CryptDecrypt data;
               DestickAppend dp])).
Proof.
  intros c b data err s Ha Hr. split; [|split].
  - intros e ->. rewrite (Read_awaiting c b Ha). cbv zeta. rewrite Hr. reflexivity.
  - intros dp e k -> HD. rewrite (Read_awaiting c b Ha). cbv zeta.
    rewrite Hr, HD. reflexivity.
  - intros dp k packets e d -> HD HA. rewrite (Read_awaiting c b Ha). cbv zeta.
    rewrite Hr, HD, HA. reflexivity.
Qed.

(** X9. When the frame under the cursor fits into the caller's buffer,
    [Read] delivers it whole: the buffer starts with the frame, the
    bytes behind it are as they were, and the count is the length of
    the frame, so the first [n] bytes of the buffer are the frame. *)
Theorem Read_delivers_whole_frame : forall (c : TCPConn S C D) (b pkt : list byte),
  draining c -> stash_is_slice c ->
  nth_error (elems (stash c)) (Z.to_nat (stashId c)) = Some pkt ->
  (List.length pkt <= List.length b)%nat ->
  Read c b
  = Ret (mkReadResult (Z.of_nat (List.length pkt)) None
           (pkt ++ skipn (List.length pkt) b) (set_stashId c (stashId c + 1)) [])
  /\ firstn (List.length pkt) (pkt ++ skipn (List.length pkt) b) = pkt
  /\ List.length (pkt ++ skipn (List.length pkt) b) = List.length b.
Proof.
  intros c b pkt Hd Hs Hn Hle.
  destruct (Read_draining c b Hd Hs) as (pkt' & Hp' & HR).
  rewrite Hn in Hp'. injection Hp' as <-.
  rewrite HR, (copy_fits _ b pkt Hle). split; [reflexivity|]. split.
  - rewrite firstn_app, firstn_all, Nat.sub_diag. cbn [firstn]. apply app_nil_r.
  - rewrite length_app, length_skipn. lia.
Qed.




(** The length of the receive buffer after a [Read]. *)
Lemma Read_buffer_length : forall (c : TCPConn S C D) b r,
  Read c b = Ret r -> List.length (buffer (r_conn r)) = List.length (buffer c).
Proof.
  assert (Hstash : forall (c : TCPConn S C D) b calls r,
             readStashed c b calls = Ret r -> buffer (r_conn r) = buffer c).
  { intros c b calls r H. unfold readStashed in H.
    destruct (index (stash c) (stashId c)); [|discriminate H]. cbn [bind] in H.
    destruct (index (stash (set_stashId c (wrap_int (stashId c + 1))))
                (wrap_int (stashId (set_stashId c (wrap_int (stashId c + 1))) - 1)));
      [|discriminate H].
    cbn [bind] in H. injection H as <-. reflexivity. }
  intros c b r H. unfold Read in H.
  destruct (is_nil (stash c) || (len (stash c) <=? stashId c));
    [|now rewrite (Hstash _ _ _ _ H)].
  cbv zeta in H.
  destruct (conn_Read (conn c) (Z.of_nat (List.length (buffer c))))
    as [[data err] s] eqn:Hr.
  assert (Hle : (List.length data <= List.length (buffer c))%nat).
  { pose proof (conn_Read_le _ _ _ _ _ (Nat2Z.is_nonneg _) Hr). lia. }
  pose proof (copy_length _ (buffer c) data Hle) as Hlen.
  destruct err as [e|]; [injection H as <-; exact Hlen|].
  cbn [buffer set_conn set_buffer crypt] in H.
  rewrite (slice_to_copy _ _ Hle) in H. cbn [bind] in H.
  destruct (Decrypt (crypt c) data) as [[dp [e|]] k]; [injection H as <-; exact Hlen|].
  change (destick (set_crypt (set_conn (set_buffer c (copy (buffer c) data)) s) k))
    with (destick c) in H.
  destruct (Append (destick c) dp) as [[packets [e|]] d];
    [injection H as <-; exact Hlen|].
  destruct (len packets =? 0); [injection H as <-; exact Hlen|].
  rewrite (Hstash _ _ _ _ H). exact Hlen.
Qed.

(** X12. The receive buffer keeps its 65535 bytes on every reachable
    connection: neither [Read] nor [Write] changes its length, so the
    slice [c.buffer[:n]] is always within bounds and every socket read
    is given room for 65535 bytes. *)
Theorem buffer_length_kept : forall c : TCPConn S C D,
  reachable c ->
  Z.of_nat (List.length (buffer c)) = 65535
  /\ (forall b r, Read c b = Ret r -> Z.of_nat (List.length (buffer (r_conn r))) = 65535)
  /\ (forall b, Z.of_nat (List.length (buffer (w_conn (Write c b)))) = 65535).
Proof.
  intros c Hreach.
  assert (H : Z.of_nat (List.length (buffer c)) = 65535).
  { induction Hreach as [s k | c b r Hc IH HR Hs | c b Hc IH].
    - apply fresh_buffer_len.
    - now rewrite (Read_buffer_length c b r HR).
    - unfold Write.
      destruct (Encrypt (crypt c) b) as [[contents [e|]] k]; [exact IH|].
      change (conn (set_crypt c k)) with (conn c).
      destruct (conn_Write (conn c) contents) as [[n err] s]. exact IH. }
  split; [exact H|]. split.
  - intros b r HR. now rewrite (Read_buffer_length c b r HR).
  - intros b. unfold Write.
    destruct (Encrypt (crypt c) b) as [[contents [e|]] k]; [exact H|].
    change (conn (set_crypt c k)) with (conn c).
    destruct (conn_Write (conn c) contents) as [[n err] s]. exact H.
Qed.

End ConnMore.

(** *** The further properties over the simulated collaborators *)

Lemma Read_failures_witness :
  exists r,
    Read (Sim.connection [inl Samples.bad_segment]) [x00; x00] = Ret r
    /\ r_n r = 0
    /\ r_err r = Some (OpError "read" "pcap" Sim.here Sim.there
                         (Wrapf "decrypt" (External "bad tag")))
    /\ r_b r = [x00; x00]
    /\ stash (r_conn r) = Some [] /\ stashId (r_conn r) = 0.
Proof.
  destruct (Read_failures (Sim.connection [inl Samples.bad_segment]) [x00; x00]
              Samples.bad_segment None (Sim.sock []) eq_refl) as (_ & H & _).
  - unfold Sim.connection. rewrite fresh_buffer_len. reflexivity.
  - eexists. split; [exact (H [] (External "bad tag") (Some x5a) eq_refl eq_refl)|].
    repeat split.
Defined.

Lemma Read_delivers_whole_frame_witness :
  exists r,
    Read Samples.stashed (repeat x00 8) = Ret r
    /\ r_n r = 5 /\ r_b r = [x01; x02; x03; x04; x05; x00; x00; x00].
Proof.
  destruct (Read_delivers_whole_frame Samples.stashed (repeat x00 8)
              [x01; x02; x03; x04; x05]) as (H & _).
  - unfold draining. cbn. lia.
  - unfold stash_is_slice, int_max. cbn. lia.
  - reflexivity.
  - cbn. lia.
  - eexists. split; [exact H|]. split; reflexivity.
Defined.


Lemma buffer_length_kept_witness :
  Z.of_nat (List.length (buffer (w_conn (Write (Sim.connection []) [x01])))) = 65535.
Proof.
  exact (proj2 (proj2 (buffer_length_kept (Sim.connection []) (reach_new _ _))) [x01]).
Defined.
